(** * GitHub profile README updater: model of [scripts/update_readme.py]

    The script fetches activity from GitHub, renders it as Markdown and
    splices the result between marker comments of a README.  This file
    embeds the script's functions and proves the properties stated for
    them.

    Conventions of the embedding.
    - A Python [str] is a [string]; its characters are the code points
      0..255 (Latin-1), which covers every text GitHub returns for logins,
      repository names, tags and timestamps.
    - [None] is the [None] of [option]; a Python exception is the outcome
      [Raises] (the kind of exception is not distinguished).
    - Text written with [print] is returned as a list of lines.
    - The network is a snapshot of GitHub: a response per URL.  Every
      request is recorded in a log, in the order it is made.  A request
      either returns the decoded JSON of GitHub's schema or fails with
      the [HTTPError] or [URLError] that the script catches (the reply
      [None]).  What the script does not catch (a connection dropped
      while the body is read, a body that is no JSON, a reply off the
      schema) has no reply in the snapshot, and the line the script
      prints for a caught failure, which quotes the error, is not
      recorded. *)

From Stdlib Require Import Strings.String Strings.Ascii.
From Stdlib Require Import Lists.List Arith.Arith ZArith.ZArith Bool.Bool Lia.
From Stdlib Require Import Sorting.Permutation Sorting.Sorted.
From Stdlib Require Import Numbers.DecimalString.
From Equations Require Import Equations.
Import ListNotations.

Local Open Scope list_scope.
Local Open Scope string_scope.

(** ** Outcomes *)

Inductive outcome (A : Type) : Type :=
| Ok (a : A)
| Raises.
Arguments Ok {A} a.
Arguments Raises {A}.

(** ** Python strings *)

Module PyStr.

(** The newline, the double quote and the backslash, by their codes. *)
Definition nl : string := String (ascii_of_nat 10) "".
Definition dq : string := String (ascii_of_nat 34) "".
Definition backslash : ascii := ascii_of_nat 92.

(** [c in "0123...": membership of one character in a string. *)
Fixpoint char_in (c : ascii) (s : string) : bool :=
  match s with
  | "" => false
  | String d s' => Ascii.eqb c d || char_in c s'
  end.

(** [str.lower] on one code point below 256: the ASCII capitals and the
    Latin-1 capitals (all of 0xC0..0xDE but the multiplication sign). *)
Definition lower_char (c : ascii) : ascii :=
  let n := nat_of_ascii c in
  if ((65 <=? n) && (n <=? 90))%nat then ascii_of_nat (n + 32)
  else if ((192 <=? n) && (n <=? 222) && negb (n =? 215))%nat
       then ascii_of_nat (n + 32)
  else c.

Fixpoint lower (s : string) : string :=
  match s with
  | "" => ""
  | String c s' => String (lower_char c) (lower s')
  end.

(** [all(p(c) for c in s)] *)
Fixpoint all_chars (p : ascii -> bool) (s : string) : bool :=
  match s with
  | "" => true
  | String c s' => p c && all_chars p s'
  end.

(** [sep.join(parts)] *)
Fixpoint join (sep : string) (parts : list string) : string :=
  match parts with
  | [] => ""
  | [p] => p
  | p :: ps => p ++ sep ++ join sep ps
  end.

(** [str(n)] for a non-negative integer. *)
Definition of_nat (n : nat) : string :=
  NilZero.string_of_uint (Nat.to_uint n).

(** Truth value of a string: non-empty. *)
Definition truthy (s : string) : bool :=
  match s with "" => false | _ => true end.

(** Truth value of an optional string: present and non-empty. *)
Definition truthy_opt (o : option string) : bool :=
  match o with Some s => truthy s | None => false end.

(** [a < b] and [a >= b] on strings: code point by code point. *)
Definition lt (a b : string) : bool := String.ltb a b.
Definition ge (a b : string) : bool := negb (String.ltb a b).

End PyStr.

(** ** The fragment of [re] the patcher uses *)

Module Re.

(** The compiled pattern is always
    [(re.escape(start))(.*?)(re.escape(end))] with [re.DOTALL]:
    two literals around a lazy run of arbitrary characters.  An escaped
    literal matches exactly its text, so the pattern is given by the two
    texts. *)

(** Literal at the current position: the input left after it. *)
Fixpoint strip_prefix (lit s : string) : option string :=
  match lit, s with
  | "", _ => Some s
  | String a lit', String b s' =>
      if Ascii.eqb a b then strip_prefix lit' s' else None
  | String _ _, "" => None
  end.

(** [(.*?)] followed by the literal [lit]: the lazy run takes no
    character if [lit] is here, and otherwise one more character (any
    one, newlines too) before trying again.  Result: the text of the
    run and the input left after [lit]. *)
Fixpoint lazy_until (lit s : string) : option (string * string) :=
  match strip_prefix lit s with
  | Some rest => Some ("", rest)
  | None =>
      match s with
      | "" => None
      | String c s' =>
          match lazy_until lit s' with
          | Some (g, rest) => Some (String c g, rest)
          | None => None
          end
      end
  end.

(** The whole pattern tried at the current position. *)
Definition match_here (st en s : string) : option (string * string) :=
  match strip_prefix st s with
  | Some s1 => lazy_until en s1
  | None => None
  end.

(** [pattern.search]: the leftmost position where the pattern matches.
    Result: the text before the match, the text of group 2 and the text
    after the match. *)
Fixpoint search (st en s : string) : option (string * string * string) :=
  match match_here st en s with
  | Some (g, rest) => Some ("", g, rest)
  | None =>
      match s with
      | "" => None
      | String c s' =>
          match search st en s' with
          | Some (pre, g, rest) => Some (String c pre, g, rest)
          | None => None
          end
      end
  end.

(** *** Replacement templates ([re._parser.parse_template]) *)

(** The tokenizer reads one character, or a backslash and the character
    after it; a backslash at the very end is an error. *)
Inductive token : Type :=
| Ch (c : ascii)
| Esc (c : ascii).

Fixpoint tokenize (s : string) : option (list token) :=
  match s with
  | "" => Some []
  | String c s' =>
      if Ascii.eqb c PyStr.backslash then
        match s' with
        | "" => None
        | String d s'' => option_map (cons (Esc d)) (tokenize s'')
        end
      else option_map (cons (Ch c)) (tokenize s')
  end.

Inductive piece : Type :=
| Lit (s : string)
| Group (n : nat).

Definition is_digit (c : ascii) : bool := PyStr.char_in c "0123456789".
Definition is_octdigit (c : ascii) : bool := PyStr.char_in c "01234567".
Definition is_ascii_letter (c : ascii) : bool :=
  PyStr.char_in c "abcdefghijklmnopqrstuvwxyzABCDEFGHIJKLMNOPQRSTUVWXYZ".
Definition digit_val (c : ascii) : nat := nat_of_ascii c - 48.

(** [int(name)] for a name made of decimal digits. *)
Fixpoint decimal (acc : nat) (s : string) : nat :=
  match s with
  | "" => acc
  | String c s' => decimal (10 * acc + digit_val c) s'
  end.

(** [s.getuntil(">")]: the tokens up to the closing [>], as text, and
    how many tokens were read, the [>] included.  An unclosed name is an
    error. *)
Fixpoint getuntil (ts : list token) : option (string * nat) :=
  match ts with
  | [] => None
  | Ch c :: ts' =>
      if Ascii.eqb c ">" then Some ("", 1)
      else match getuntil ts' with
           | Some (name, k) => Some (String c name, S k)
           | None => None
           end
  | Esc c :: ts' =>
      match getuntil ts' with
      | Some (name, k) =>
          Some (String PyStr.backslash (String c name), S k)
      | None => None
      end
  end.

(** The table [ESCAPES] of [re._parser]. *)
Definition escape_code (c : ascii) : option nat :=
  if Ascii.eqb c "a" then Some 7
  else if Ascii.eqb c "b" then Some 8
  else if Ascii.eqb c "f" then Some 12
  else if Ascii.eqb c "n" then Some 10
  else if Ascii.eqb c "r" then Some 13
  else if Ascii.eqb c "t" then Some 9
  else if Ascii.eqb c "v" then Some 11
  else if Ascii.eqb c PyStr.backslash then Some 92
  else None.

(** Number of groups of the pattern. *)
Definition groups : nat := 3.

Definition chr (n : nat) : string := String (ascii_of_nat n) "".

(** [addgroup]: a reference to a group the pattern does not have is an
    error. *)
Definition addgroup (index extra : nat) : option (piece * nat) :=
  if (index <=? groups)%nat then Some (Group index, extra) else None.

(** One escape [\c] of the template, the tokens [ts] following it.
    Result: what it stands for and how many of the following tokens it
    takes; [None] when [parse_template] raises.  A group name between
    the angle brackets is a run of decimal digits: the pattern has no
    named group, so any other name raises. *)
Definition escape_step (c : ascii) (ts : list token) : option (piece * nat) :=
  if Ascii.eqb c "g" then
    match ts with
    | Ch lt :: ts1 =>
        if Ascii.eqb lt "<" then
          match getuntil ts1 with
          | Some (name, k) =>
              if PyStr.truthy name && PyStr.all_chars is_digit name
              then addgroup (decimal 0 name) (S k)
              else None
          | None => None
          end
        else None
    | _ => None
    end
  else if Ascii.eqb c "0" then
    match ts with
    | Ch d1 :: Ch d2 :: _ =>
        if is_octdigit d1 then
          if is_octdigit d2
          then Some (Lit (chr ((8 * digit_val d1 + digit_val d2) mod 256)), 2)
          else Some (Lit (chr (digit_val d1 mod 256)), 1)
        else Some (Lit (chr 0), 0)
    | Ch d1 :: _ =>
        if is_octdigit d1 then Some (Lit (chr (digit_val d1 mod 256)), 1)
        else Some (Lit (chr 0), 0)
    | _ => Some (Lit (chr 0), 0)
    end
  else if is_digit c then
    match ts with
    | Ch d1 :: ts1 =>
        if is_digit d1 then
          match ts1 with
          | Ch d2 :: _ =>
              if is_octdigit c && is_octdigit d1 && is_octdigit d2 then
                let code := 64 * digit_val c + 8 * digit_val d1 + digit_val d2 in
                if (code <=? 255)%nat then Some (Lit (chr code), 2) else None
              else addgroup (10 * digit_val c + digit_val d1) 1
          | _ => addgroup (10 * digit_val c + digit_val d1) 1
          end
        else addgroup (digit_val c) 0
    | _ => addgroup (digit_val c) 0
    end
  else
    match escape_code c with
    | Some n => Some (Lit (chr n), 0)
    | None =>
        if is_ascii_letter c then None
        else Some (Lit (String PyStr.backslash (String c "")), 0)
    end.

(** [parse_template]: the template as literal texts and group
    references. *)
Equations? parse (ts : list token) : option (list piece) by wf (length ts) lt :=
  parse [] := Some [];
  parse (Ch c :: ts) := option_map (cons (Lit (String c ""))) (parse ts);
  parse (Esc c :: ts) with escape_step c ts := {
    | Some (p, k) := option_map (cons p) (parse (skipn k ts));
    | None := None }.
Proof.
  all: try rewrite length_skipn; simpl; lia.
Qed.

Definition compile_template (repl : string) : option (list piece) :=
  match tokenize repl with
  | Some ts => parse ts
  | None => None
  end.

(** A match: the texts of its three groups. *)
Record groups_of_match : Type := MkMatch {
  g1 : string;
  g2 : string;
  g3 : string
}.

Definition group (m : groups_of_match) (n : nat) : string :=
  match n with
  | 0 => g1 m ++ g2 m ++ g3 m
  | 1 => g1 m
  | 2 => g2 m
  | _ => g3 m
  end.

(** [match.expand] on a compiled template. *)
Fixpoint expand (tmpl : list piece) (m : groups_of_match) : string :=
  match tmpl with
  | [] => ""
  | Lit s :: tmpl' => s ++ expand tmpl' m
  | Group n :: tmpl' => group m n ++ expand tmpl' m
  end.

End Re.

(** ** README patcher *)

Definition start_marker (section_name : string) : string :=
  "<!-- " ++ section_name ++ "_START -->".

Definition end_marker (section_name : string) : string :=
  "<!-- " ++ section_name ++ "_END -->".

(** Facts about the matcher that the substitution loop rests on. *)

Lemma append_assoc (a b c : string) : (a ++ b) ++ c = a ++ b ++ c.
Proof.
  induction a as [|x a IH]; simpl; [reflexivity | now rewrite IH].
Qed.

Lemma length_append (a b : string) :
  String.length (a ++ b) = String.length a + String.length b.
Proof.
  induction a as [|x a IH]; simpl; [reflexivity | now rewrite IH].
Qed.

Lemma strip_prefix_sound (lit s r : string) :
  Re.strip_prefix lit s = Some r -> s = lit ++ r.
Proof.
  revert s; induction lit as [|a lit IH]; intros s H; simpl in *.
  - now inversion H.
  - destruct s as [|b s]; [discriminate|].
    destruct (Ascii.eqb_spec a b) as [->|]; [|discriminate].
    now rewrite (IH _ H).
Qed.

Lemma strip_prefix_app (lit r : string) :
  Re.strip_prefix lit (lit ++ r) = Some r.
Proof.
  induction lit as [|a lit IH]; simpl; [reflexivity|].
  now rewrite Ascii.eqb_refl.
Qed.

Lemma lazy_until_eq (lit s : string) :
  Re.lazy_until lit s =
  match Re.strip_prefix lit s with
  | Some rest => Some ("", rest)
  | None =>
      match s with
      | "" => None
      | String c s' =>
          match Re.lazy_until lit s' with
          | Some (g, rest) => Some (String c g, rest)
          | None => None
          end
      end
  end.
Proof. destruct s; reflexivity. Qed.

Lemma search_eq (st en s : string) :
  Re.search st en s =
  match Re.match_here st en s with
  | Some (g, rest) => Some ("", g, rest)
  | None =>
      match s with
      | "" => None
      | String c s' =>
          match Re.search st en s' with
          | Some (pre, g, rest) => Some (String c pre, g, rest)
          | None => None
          end
      end
  end.
Proof. destruct s; reflexivity. Qed.

Lemma lazy_until_sound (lit s g r : string) :
  Re.lazy_until lit s = Some (g, r) -> s = g ++ lit ++ r.
Proof.
  revert g; induction s as [|c s IH]; intros g; rewrite lazy_until_eq;
    destruct (Re.strip_prefix lit _) eqn:E; intros H;
    try (inversion H; subst; simpl; now apply strip_prefix_sound); try discriminate H.
  revert H. destruct (Re.lazy_until lit s) as [[g' r']|] eqn:E'; intros H;
    [|discriminate H].
  inversion H; subst. simpl. now rewrite (IH g' eq_refl).
Qed.

Lemma match_here_sound (st en s g r : string) :
  Re.match_here st en s = Some (g, r) -> s = st ++ g ++ en ++ r.
Proof.
  unfold Re.match_here. destruct (Re.strip_prefix st s) eqn:E; [|discriminate].
  intros H. apply strip_prefix_sound in E. apply lazy_until_sound in H.
  now rewrite E, H.
Qed.

Lemma search_sound (st en s pre g r : string) :
  Re.search st en s = Some (pre, g, r) -> s = pre ++ st ++ g ++ en ++ r.
Proof.
  revert pre; induction s as [|c s IH]; intros pre; rewrite search_eq;
    destruct (Re.match_here st en _) as [[g' r']|] eqn:E; intros H;
    try (inversion H; subst; simpl; now apply match_here_sound); try discriminate H.
  revert H. destruct (Re.search st en s) as [[[p' g'] r']|] eqn:E'; intros H;
    [|discriminate H].
  inversion H; subst. simpl. now rewrite (IH p' eq_refl).
Qed.

Lemma search_rest_shorter (name s pre g r : string) :
  Re.search (start_marker name) (end_marker name) s = Some (pre, g, r) ->
  String.length r < String.length s.
Proof.
  intros H. apply search_sound in H. subst s.
  unfold start_marker. rewrite !length_append. simpl. lia.
Qed.

Definition inspect {A : Type} (a : A) : {b : A | a = b} := exist _ a eq_refl.

(** [pattern.sub(replacement, content)] with the template already
    compiled: every match, from left to right, is replaced by the
    expansion of the template; the search resumes right after the match
    (a match is never empty, the start marker is part of it). *)
Equations? pattern_sub (section_name : string) (tmpl : list Re.piece)
    (content : string) : string by wf (String.length content) lt :=
  pattern_sub section_name tmpl content
    with inspect (Re.search (start_marker section_name)
                            (end_marker section_name) content) := {
    | exist _ None _ := content;
    | exist _ (Some (pre, g, rest)) _ :=
        pre ++ Re.expand tmpl (Re.MkMatch (start_marker section_name) g
                                          (end_marker section_name))
            ++ pattern_sub section_name tmpl rest }.
Proof.
  eapply search_rest_shorter; eassumption.
Qed.

(** [update_readme_section]: the printed lines and the outcome. *)
Definition update_readme_section (content section_name new_content : string)
  : list string * outcome string :=
  let start_marker := start_marker section_name in
  let end_marker := end_marker section_name in
  let replacement := start_marker ++ PyStr.nl ++ new_content ++ PyStr.nl ++ end_marker in
  match Re.search start_marker end_marker content with
  | Some _ =>
      match Re.compile_template replacement with
      | Some tmpl => ([], Ok (pattern_sub section_name tmpl content))
      | None => ([], Raises)
      end
  | None =>
      (["Warning: Section markers for '" ++ section_name ++ "' not found in README"],
       Ok content)
  end.


(** ** GitHub data *)

Definition GITHUB_USERNAME : string := "jimyag".

(** The decoded JSON of each endpoint, with the keys the script reads.  A
    key read with [.get] is optional ([None] when absent or null); a key
    read with [...] is always there, as GitHub's schema has it. *)

Module Repo.
Record t : Type := Make {
  fork : option bool;
  name : string;
  full_name : string;
  html_url : string;
  pushed_at : option string
}.
End Repo.

Module Commit.
Record t : Type := Make { sha : string }.
End Commit.

Module Release.
Record t : Type := Make {
  published_at : option string;
  tag_name : string;
  html_url : string
}.
End Release.

Module Tag.
Record t : Type := Make { name : string }.
End Tag.

Module PullRequest.
Record t : Type := Make {
  title : string;
  url : string;
  mergedAt : option string;
  state : string
}.
End PullRequest.

Module Repository.
Record t : Type := Make {
  nameWithOwner : string;
  url : string;
  isPrivate : bool;
  owner_login : string
}.
End Repository.

(** One entry of [pullRequestContributionsByRepository]; [nodes] holds the
    [pullRequest] of each node of [contributions]. *)
Module RepoContribution.
Record t : Type := Make {
  repository : Repository.t;
  nodes : list PullRequest.t
}.
End RepoContribution.

(** The reply to the GraphQL query: [data] is the list found at
    [result["data"]["user"]["contributionsCollection"]
    ["pullRequestContributionsByRepository"]], and [None] when the reply
    has no key [data].  A reply whose [data] is there but null, or has
    no user, is off the schema and has no value here: the script raises
    on it. *)
Module GraphQL.
Record t : Type := Make { data : option (list RepoContribution.t) }.
End GraphQL.

(** ** Activity records *)

Module Activity.

(** What the two kinds of record do not share; the key [type] of the
    dictionary tells them apart. *)
Inductive kind : Type :=
| repo (commit_count : nat) (has_release : bool)
       (latest_tag latest_tag_url : option string)
| contribution (pr_count : nat).

Record t : Type := Make {
  type : kind;
  name : string;
  url : string;
  latest_activity : string
}.

End Activity.

(** ** The world outside: GitHub and the clock *)

(** A snapshot of GitHub: the reply to each request, [None] when the
    request fails with an [HTTPError] or a [URLError], the two failures
    the script catches.  The REST replies are typed by the endpoint
    asked.  [clock days] is the text of
    [(datetime.now(timezone.utc) - timedelta(days=days))
     .strftime("%Y-%m-%dT%H:%M:%SZ")], which raises when the date leaves the
    range of [datetime]. *)
Record world : Type := World {
  rest_repos : string -> option (list Repo.t);
  rest_commits : string -> option (list Commit.t);
  rest_releases : string -> option (list Release.t);
  rest_tags : string -> option (list Tag.t);
  graphql : string -> option GraphQL.t;
  clock : Z -> outcome string
}.

(** Computations that send requests: the log of the URLs requested so far
    goes in and comes out. *)
Definition M (A : Type) : Type := list string -> A * list string.

Definition ret {A : Type} (a : A) : M A := fun log => (a, log).

Definition bind {A B : Type} (c : M A) (k : A -> M B) : M B :=
  fun log => let (a, log') := c log in k a log'.

Notation "x <- c ;; k" := (bind c (fun x => k))
  (at level 61, c at next level, right associativity).

Notation "' p <- c ;; k" := (bind c (fun x => let p := x in k))
  (at level 61, p pattern, c at next level, right associativity).

(** [github_api_request]: one GET; the reply is the endpoint's, [None]
    for the two failures caught.  The line printed for a caught failure
    is left out, and so is a request that raises anything else. *)
Definition github_api_request {A : Type} (endpoint : string -> option A)
    (url : string) : M (option A) :=
  fun log => (endpoint url, (log ++ [url])%list).

(** [github_graphql_request]: one POST of the query, with the same
    reading of the reply as [github_api_request]. *)
Definition github_graphql_request (W : world) (query : string)
  : M (option GraphQL.t) :=
  fun log => (graphql W query, (log ++ ["https://api.github.com/graphql"])%list).

(** ** [list.sort(key=..., reverse=True)] *)

Section Sort.

Context {A : Type}.
Variable key : A -> string.

(** [x] goes before the first element whose key is not below its own. *)
Fixpoint insert (x : A) (l : list A) : list A :=
  match l with
  | [] => [x]
  | y :: l' =>
      if PyStr.lt (key y) (key x) then y :: insert x l' else x :: y :: l'
  end.

(** A stable ascending sort.  [list.sort] is specified as stable, and
    the stable ordering of a list is unique. *)
Fixpoint stable_sort (l : list A) : list A :=
  match l with
  | [] => []
  | x :: l' => insert x (stable_sort l')
  end.

(** With [reverse=True] the list is reversed before and after the sort, so
    that elements with equal keys keep their order. *)
Definition list_sort (reverse : bool) (l : list A) : list A :=
  if reverse then rev (stable_sort (rev l)) else stable_sort l.

End Sort.

(** [l[:limit]] *)
Definition slice_to {A : Type} (limit : Z) (l : list A) : list A :=
  if (limit <? 0)%Z
  then firstn (List.length l - Z.to_nat (- limit)) l
  else firstn (Z.to_nat limit) l.

(** ** Collectors *)

(** The GraphQL query of [get_open_source_contributions]. *)
Definition contributions_query : string :=
  PyStr.nl ++
"    {
      user(login: " ++ PyStr.dq ++ GITHUB_USERNAME ++ PyStr.dq ++ ") {
        contributionsCollection {
          pullRequestContributionsByRepository(maxRepositories: 50) {
            repository {
              nameWithOwner
              url
              isPrivate
              owner {
                login
              }
            }
            contributions(first: 10) {
              nodes {
                pullRequest {
                  title
                  url
                  mergedAt
                  state
                }
              }
            }
          }
        }
      }
    }
    ".

(** The owner login looks like a hash: more than 30 characters, all of
    them, once lowered, among [0123456789abcdef]. *)
Definition hash_like (owner_name : string) : bool :=
  (30 <? String.length owner_name)%nat
  && PyStr.all_chars (fun c => PyStr.char_in c "0123456789abcdef")
                     (PyStr.lower owner_name).

(** The sort key of a merged pull request, [x["mergedAt"]]; the list
    sorted holds no pull request without a merge date. *)
Definition merged_key (pr : PullRequest.t) : string :=
  match PullRequest.mergedAt pr with
  | Some m => m
  | None => ""
  end.

(** Body of the loop of [get_open_source_contributions]: the record
    appended for one entry, if any. *)
Definition contribution_step (cutoff_iso : string)
    (repo_contribution : RepoContribution.t) : option Activity.t :=
  let repo := RepoContribution.repository repo_contribution in
  if Repository.isPrivate repo then None
  else if String.eqb (PyStr.lower (Repository.owner_login repo))
                     (PyStr.lower GITHUB_USERNAME) then None
  else
    let owner_name := Repository.owner_login repo in
    if hash_like owner_name then None
    else
      let merged_prs :=
        filter (fun pr =>
                  match PullRequest.mergedAt pr with
                  | Some m => PyStr.ge m cutoff_iso
                  | None => false
                  end)
               (RepoContribution.nodes repo_contribution) in
      match list_sort merged_key true merged_prs with
      | [] => None
      | latest_pr :: _ =>
          Some (Activity.Make
                  (Activity.contribution (List.length merged_prs))
                  (Repository.nameWithOwner repo)
                  (Repository.url repo)
                  (merged_key latest_pr))
      end.

Fixpoint contributions_loop (cutoff_iso : string)
    (pr_repos : list RepoContribution.t) : list Activity.t :=
  match pr_repos with
  | [] => []
  | rc :: rest =>
      match contribution_step cutoff_iso rc with
      | Some a => a :: contributions_loop cutoff_iso rest
      | None => contributions_loop cutoff_iso rest
      end
  end.

Definition get_open_source_contributions (W : world) (cutoff_iso : string)
  : M (list Activity.t) :=
  result <- github_graphql_request W contributions_query ;;
  match result with
  | Some (GraphQL.Make (Some pr_repos)) =>
      ret (contributions_loop cutoff_iso pr_repos)
  | _ => ret []
  end.

Definition repos_url : string :=
  "https://api.github.com/users/" ++ GITHUB_USERNAME
  ++ "/repos?per_page=100&type=owner&sort=pushed&direction=desc".

Definition commits_url (cutoff_iso : string) (repo : Repo.t) : string :=
  "https://api.github.com/repos/" ++ Repo.full_name repo
  ++ "/commits?since=" ++ cutoff_iso ++ "&per_page=100".

Definition releases_url (repo : Repo.t) : string :=
  "https://api.github.com/repos/" ++ Repo.full_name repo
  ++ "/releases?per_page=10".

Definition tags_url (repo : Repo.t) : string :=
  "https://api.github.com/repos/" ++ Repo.full_name repo ++ "/tags?per_page=5".

(** [release.get("published_at") and release["published_at"] >= cutoff_iso] *)
Definition recent_release (cutoff_iso : string) (release : Release.t) : bool :=
  match Release.published_at release with
  | Some p => PyStr.truthy p && PyStr.ge p cutoff_iso
  | None => false
  end.

(** Body of the loop of [get_own_repos_activity]: the requests made for
    one repository and the record appended for it, if any. *)
Definition own_repo_step (W : world) (cutoff_iso : string) (repo : Repo.t)
  : M (option Activity.t) :=
  if match Repo.fork repo with Some b => b | None => false end then ret None
  else if String.eqb (PyStr.lower (Repo.name repo))
                     (PyStr.lower GITHUB_USERNAME) then ret None
  else
    match Repo.pushed_at repo with
    | None => ret None
    | Some pushed_at =>
        if negb (PyStr.truthy pushed_at) || PyStr.lt pushed_at cutoff_iso
        then ret None
        else
          commits <- github_api_request (rest_commits W)
                       (commits_url cutoff_iso repo) ;;
          let commit_count :=
            match commits with
            | Some ((_ :: _) as l) => List.length l
            | _ => 0
            end in
          if (commit_count =? 0)%nat then ret None
          else
            releases <- github_api_request (rest_releases W)
                          (releases_url repo) ;;
            let recent_releases :=
              match releases with
              | Some l => filter (recent_release cutoff_iso) l
              | None => []
              end in
            let latest :=
              match recent_releases with
              | r :: _ => (Some (Release.tag_name r), Some (Release.html_url r))
              | [] => (None, None)
              end in
            latest' <-
              (if negb (PyStr.truthy_opt (fst latest)) then
                 tags <- github_api_request (rest_tags W) (tags_url repo) ;;
                 match tags with
                 | Some (t :: _) =>
                     ret (Some (Tag.name t),
                          Some (Repo.html_url repo ++ "/releases/tag/"
                                ++ Tag.name t))
                 | _ => ret latest
                 end
               else ret latest) ;;
            ret (Some (Activity.Make
                         (Activity.repo commit_count
                            (0 <? List.length recent_releases)%nat
                            (fst latest') (snd latest'))
                         (Repo.name repo)
                         (Repo.html_url repo)
                         pushed_at))
    end.

Fixpoint own_repos_loop (W : world) (cutoff_iso : string)
    (repos : list Repo.t) : M (list Activity.t) :=
  match repos with
  | [] => ret []
  | repo :: rest =>
      o <- own_repo_step W cutoff_iso repo ;;
      recent_repos <- own_repos_loop W cutoff_iso rest ;;
      ret (match o with
           | Some a => a :: recent_repos
           | None => recent_repos
           end)
  end.

Definition get_own_repos_activity (W : world) (cutoff_iso : string)
  : M (list Activity.t) :=
  repos <- github_api_request (rest_repos W) repos_url ;;
  match repos with
  | Some ((_ :: _) as l) => own_repos_loop W cutoff_iso l
  | _ => ret []
  end.

(** ** Merge and rank *)

Definition get_all_activity (W : world) (months limit : Z)
  : M (outcome (list Activity.t)) :=
  match clock W (months * 30) with
  | Raises => ret Raises
  | Ok cutoff_iso =>
      own_repos <- get_own_repos_activity W cutoff_iso ;;
      contributions <- get_open_source_contributions W cutoff_iso ;;
      let all_activity := (own_repos ++ contributions)%list in
      let all_activity := list_sort Activity.latest_activity true all_activity in
      ret (Ok (slice_to limit all_activity))
  end.

(** ** Markdown renderer *)

(** [f"{x}"] for an optional text: [None] prints as the word. *)
Definition fmt_opt (o : option string) : string :=
  match o with Some s => s | None => "None" end.

(** The line of one record. *)
Definition activity_line (item : Activity.t) : string :=
  match Activity.type item with
  | Activity.repo commit_count _ latest_tag latest_tag_url =>
      let commits_stat :=
        if (0 <? commit_count)%nat
        then [PyStr.of_nat commit_count ++ " commits"] else [] in
      let tag_stat :=
        if PyStr.truthy_opt latest_tag
        then ["[" ++ fmt_opt latest_tag ++ "](" ++ fmt_opt latest_tag_url ++ ")"]
        else [] in
      let stats := app commits_stat tag_stat in
      let line := "- [" ++ Activity.name item ++ "](" ++ Activity.url item ++ ")" in
      match stats with
      | [] => line
      | _ => line ++ " (" ++ PyStr.join ", " stats ++ ")"
      end
  | Activity.contribution pr_count =>
      let pr_text := if (pr_count =? 1)%nat then "PR" else "PRs" in
      "- [" ++ Activity.name item ++ "](" ++ Activity.url item ++ ") ("
      ++ PyStr.of_nat pr_count ++ " merged " ++ pr_text ++ ")"
  end.

Definition generate_activity_markdown (activities : list Activity.t) : string :=
  match activities with
  | [] => "_No recent activity_"
  | _ => PyStr.join PyStr.nl (map activity_line activities)
  end.

(** ** Entry point *)

(** [f.read()] on a file opened in text mode with the default [newline]:
    the line ends [\r\n] and [\r] of the file are read as [\n]. *)
Fixpoint universal_newlines (s : string) : string :=
  match s with
  | EmptyString => EmptyString
  | String c s' =>
      if Ascii.eqb c "013"%char then
        match s' with
        | String d s'' =>
            if Ascii.eqb d "010"%char
            then String "010"%char (universal_newlines s'')
            else String "010"%char (universal_newlines s')
        | EmptyString => String "010"%char EmptyString
        end
      else String c (universal_newlines s')
  end.

(** The machine [main] runs on: the snapshot of GitHub; the README, with
    its absolute path, the text stored in the file ([None] when the file
    cannot be opened, read or decoded) and whether it can be opened for
    writing; and [stamp], the text of
    [datetime.now(timezone.utc).strftime("%Y-%m-%d %H:%M UTC")] when the
    second section is patched. *)
Record machine : Type := Machine {
  github : world;
  readme_path : string;
  readme : option string;
  writable : bool;
  stamp : string
}.

(** What a run of [main] leaves: the texts it printed itself, one per
    call of [print] (a failed request adds a line of its own, which
    quotes the error and is not recorded: [printed] is all the output
    only when every request is answered); the requests made; the text
    handed to [f.write], if the README was written (the file then holds
    it with the line separator of the platform for each [\n], which is
    [\n] itself where the script runs); and whether the run ended or
    raised. *)
Record run : Type := Run {
  printed : list string;
  requested : list string;
  written : option string;
  exit : outcome unit
}.

Definition main (m : machine) : run :=
  let out := ["Fetching GitHub data..."; "  - Getting all recent activity..."] in
  let (activity, log) := get_all_activity (github m) 2 10 [] in
  match activity with
  | Raises => Run out log None Raises
  | Ok activity =>
      let found := "    Found " ++ PyStr.of_nat (List.length activity)
                   ++ " activities" in
      let out := app out [found] in
      let activity_md := generate_activity_markdown activity in
      let updating := PyStr.nl ++ "Updating README at: " ++ readme_path m in
      let out := app out [updating] in
      match readme m with
      | None => Run out log None Raises
      | Some stored =>
          let content := universal_newlines stored in
          let (warned, patched) :=
            update_readme_section content "ACTIVITY" activity_md in
          let out := app out warned in
          match patched with
          | Raises => Run out log None Raises
          | Ok content =>
              let timestamp := stamp m in
              let (warned, patched) :=
                update_readme_section content "UPDATED"
                  ("_Last updated: " ++ timestamp ++ "_") in
              let out := app out warned in
              match patched with
              | Raises => Run out log None Raises
              | Ok content =>
                  let updated := PyStr.nl ++ "README updated successfully!" in
                  if writable m
                  then Run (app out [updated]) log (Some content) (Ok tt)
                  else Run out log None Raises
              end
          end
      end
  end.

(** * Properties *)

(** ** Order of strings *)

Lemma ascii_compare_refl (c : ascii) : Ascii.compare c c = Eq.
Proof. unfold Ascii.compare. apply N.compare_refl. Qed.

Lemma ascii_compare_lt_trans (a b c : ascii) :
  Ascii.compare a b = Lt -> Ascii.compare b c = Lt -> Ascii.compare a c = Lt.
Proof.
  unfold Ascii.compare. rewrite !N.compare_lt_iff. apply N.lt_trans.
Qed.

Lemma compare_refl (s : string) : String.compare s s = Eq.
Proof.
  induction s as [|c s IH]; simpl; [reflexivity|].
  now rewrite ascii_compare_refl.
Qed.

Lemma compare_lt_trans (a b c : string) :
  String.compare a b = Lt -> String.compare b c = Lt -> String.compare a c = Lt.
Proof.
  revert b c; induction a as [|x a IH]; intros [|y b] [|z c]; simpl;
    try congruence.
  destruct (Ascii.compare x y) eqn:Exy; try discriminate;
    destruct (Ascii.compare y z) eqn:Eyz; try discriminate; intros H1 H2.
  - apply Ascii.compare_eq_iff in Exy, Eyz. subst.
    rewrite ascii_compare_refl. eauto.
  - apply Ascii.compare_eq_iff in Exy. subst. now rewrite Eyz.
  - apply Ascii.compare_eq_iff in Eyz. subst. now rewrite Exy.
  - now rewrite (ascii_compare_lt_trans _ _ _ Exy Eyz).
Qed.

Lemma lt_irrefl (s : string) : PyStr.lt s s = false.
Proof. unfold PyStr.lt, String.ltb. now rewrite compare_refl. Qed.

Lemma lt_asym (a b : string) : PyStr.lt a b = true -> PyStr.lt b a = false.
Proof.
  unfold PyStr.lt, String.ltb. rewrite (String.compare_antisym a b).
  destruct (String.compare b a); simpl; congruence.
Qed.

(** [a <= b] and [b <= c] give [a <= c], with [x <= y] read as "not
    [y < x]". *)
Lemma not_lt_trans (a b c : string) :
  PyStr.lt b a = false -> PyStr.lt c b = false -> PyStr.lt c a = false.
Proof.
  unfold PyStr.lt, String.ltb. intros H1 H2.
  destruct (String.compare c a) eqn:Eca; try reflexivity. exfalso.
  destruct (String.compare b a) eqn:Eba; try discriminate.
  - apply String.compare_eq_iff in Eba. subst. now rewrite Eca in H2.
  - destruct (String.compare c b) eqn:Ecb; try discriminate.
    + apply String.compare_eq_iff in Ecb. subst. congruence.
    + rewrite (String.compare_antisym c b) in Ecb.
      rewrite (String.compare_antisym b a) in Eba.
      destruct (String.compare b c) eqn:Ebc; try discriminate.
      destruct (String.compare a b) eqn:Eab; try discriminate.
      pose proof (compare_lt_trans _ _ _ Eab Ebc) as Hac.
      rewrite (String.compare_antisym c a), Hac in Eca. discriminate.
Qed.

(** ** The sort *)

Section SortFacts.

Context {A : Type}.
Variable key : A -> string.

(** Ascending and descending order of the keys. *)
Definition ascending (a b : A) : Prop := PyStr.lt (key b) (key a) = false.
Definition descending (a b : A) : Prop := PyStr.ge (key a) (key b) = true.

Lemma insert_perm (x : A) (l : list A) : Permutation (insert key x l) (x :: l).
Proof.
  induction l as [|y l IH]; simpl; [reflexivity|].
  destruct (PyStr.lt (key y) (key x)); [|reflexivity].
  rewrite IH. apply perm_swap.
Qed.

Lemma stable_sort_perm (l : list A) : Permutation (stable_sort key l) l.
Proof.
  induction l as [|x l IH]; simpl; [reflexivity|].
  rewrite insert_perm. now constructor.
Qed.

Lemma insert_sorted (x : A) (l : list A) :
  StronglySorted ascending l -> StronglySorted ascending (insert key x l).
Proof.
  induction 1 as [|y l Hs IH Hy]; simpl.
  - repeat constructor.
  - destruct (PyStr.lt (key y) (key x)) eqn:E.
    + constructor; [exact IH|].
      apply (Permutation_Forall (Permutation_sym (insert_perm x l))).
      constructor; [|exact Hy]. unfold ascending. now apply lt_asym.
    + constructor; [now constructor|]. constructor; [exact E|].
      eapply Forall_impl; [|exact Hy]. unfold ascending. intros z Hz.
      eapply not_lt_trans; eassumption.
Qed.

Lemma stable_sort_sorted (l : list A) :
  StronglySorted ascending (stable_sort key l).
Proof.
  induction l as [|x l IH]; simpl; [constructor | now apply insert_sorted].
Qed.

(** The elements of one key keep their order. *)
Lemma insert_stable (t : string) (x : A) (l : list A) :
  filter (fun a => String.eqb (key a) t) (insert key x l) =
  filter (fun a => String.eqb (key a) t) (x :: l).
Proof.
  induction l as [|y l IH]; [reflexivity|].
  cbn [insert]. destruct (PyStr.lt (key y) (key x)) eqn:E; [|reflexivity].
  cbn [filter] in *. rewrite IH.
  destruct (String.eqb_spec (key x) t) as [Hx|Hx];
    destruct (String.eqb_spec (key y) t) as [Hy|Hy]; try reflexivity.
  rewrite <- Hx in Hy. rewrite Hy, lt_irrefl in E. discriminate.
Qed.

Lemma stable_sort_stable (t : string) (l : list A) :
  filter (fun a => String.eqb (key a) t) (stable_sort key l) =
  filter (fun a => String.eqb (key a) t) l.
Proof.
  induction l as [|x l IH]; [reflexivity|].
  cbn [stable_sort]. rewrite insert_stable. cbn [filter]. now rewrite IH.
Qed.

Lemma filter_rev (p : A -> bool) (l : list A) :
  filter p (rev l) = rev (filter p l).
Proof.
  induction l as [|x l IH]; [reflexivity|].
  cbn [rev filter]. rewrite filter_app, IH. cbn [filter].
  destruct (p x); [reflexivity | now rewrite app_nil_r].
Qed.

Lemma sorted_snoc (R : A -> A -> Prop) (l : list A) (x : A) :
  StronglySorted R l -> Forall (fun y => R y x) l ->
  StronglySorted R (l ++ [x]).
Proof.
  induction 1 as [|y l Hs IH Hy]; intros Hx; simpl.
  - repeat constructor.
  - inversion Hx; subst. constructor; [now apply IH|].
    apply Forall_app. split; [exact Hy | now repeat constructor].
Qed.

Lemma sorted_rev (R : A -> A -> Prop) (l : list A) :
  StronglySorted R l -> StronglySorted (fun a b => R b a) (rev l).
Proof.
  induction 1 as [|y l Hs IH Hy]; simpl; [constructor|].
  apply sorted_snoc; [exact IH|]. now apply Forall_rev.
Qed.

Lemma sorted_impl (R R' : A -> A -> Prop) (l : list A) :
  (forall a b, R a b -> R' a b) -> StronglySorted R l -> StronglySorted R' l.
Proof.
  intros HR. induction 1 as [|y l Hs IH Hy]; constructor; [exact IH|].
  eapply Forall_impl; [|exact Hy]. intros b. apply HR.
Qed.

(** [list.sort(key=key, reverse=True)]: a permutation, in descending
    order of the keys, the elements of one key in their original order. *)
Lemma list_sort_reverse_spec (l : list A) :
  Permutation (list_sort key true l) l
  /\ StronglySorted descending (list_sort key true l)
  /\ forall t, filter (fun a => String.eqb (key a) t) (list_sort key true l) =
               filter (fun a => String.eqb (key a) t) l.
Proof.
  unfold list_sort. repeat split.
  - rewrite <- Permutation_rev, stable_sort_perm. symmetry. apply Permutation_rev.
  - eapply sorted_impl; [|apply sorted_rev, stable_sort_sorted].
    unfold ascending, descending, PyStr.ge, PyStr.lt. intros a b Hab.
    now rewrite Hab.
  - intros t. rewrite filter_rev, stable_sort_stable, filter_rev. apply rev_involutive.
Qed.

End SortFacts.

(** ** Requests and values of a computation *)

Definition value {A : Type} (c : M A) : A := fst (c []).
Definition requests {A : Type} (c : M A) : list string := snd (c []).

(** The replies are those of a snapshot: a computation returns the same
    value whatever the log, and adds its requests to the log it is
    given. *)
Definition regular {A : Type} (c : M A) : Prop :=
  forall log, c log = (value c, (log ++ requests c)%list).

Lemma regular_ret {A : Type} (a : A) : regular (ret a).
Proof. intros log. unfold ret, value, requests. simpl. now rewrite app_nil_r. Qed.

Lemma regular_request {A : Type} (endpoint : string -> option A) (url : string) :
  regular (github_api_request endpoint url).
Proof. intros log. reflexivity. Qed.

Lemma regular_graphql (W : world) (query : string) :
  regular (github_graphql_request W query).
Proof. intros log. reflexivity. Qed.

Lemma bind_run {A B : Type} (c : M A) (k : A -> M B) :
  regular c -> (forall a, regular (k a)) ->
  regular (bind c k)
  /\ value (bind c k) = value (k (value c))
  /\ requests (bind c k) = (requests c ++ requests (k (value c)))%list.
Proof.
  intros Hc Hk.
  assert (E : forall log, bind c k log =
            (value (k (value c)), (log ++ requests c ++ requests (k (value c)))%list)).
  { intros log. unfold bind. rewrite (Hc log), (Hk (value c)).
    now rewrite app_assoc. }
  assert (V : value (bind c k) = value (k (value c))).
  { unfold value at 1. now rewrite E. }
  assert (R : requests (bind c k) = (requests c ++ requests (k (value c)))%list).
  { unfold requests at 1. now rewrite E. }
  repeat split; try assumption.
  intros log. now rewrite E, V, R.
Qed.

Lemma regular_bind {A B : Type} (c : M A) (k : A -> M B) :
  regular c -> (forall a, regular (k a)) -> regular (bind c k).
Proof. intros Hc Hk. now apply bind_run. Qed.

Ltac regular :=
  repeat first
    [ apply regular_ret
    | apply regular_request
    | apply regular_graphql
    | apply regular_bind; [|intros ?]
    | match goal with
      | |- regular (if ?b then _ else _) => destruct b
      | |- regular (match ?x with _ => _ end) => destruct x
      | |- regular (let _ := _ in _) => cbv zeta
      end ].

Lemma regular_own_repo_step (W : world) (cutoff_iso : string) (repo : Repo.t) :
  regular (own_repo_step W cutoff_iso repo).
Proof. unfold own_repo_step. regular. Qed.

Lemma regular_own_repos_loop (W : world) (cutoff_iso : string) (repos : list Repo.t) :
  regular (own_repos_loop W cutoff_iso repos).
Proof.
  induction repos as [|r l IH]; cbn [own_repos_loop]; [apply regular_ret|].
  apply regular_bind; [apply regular_own_repo_step|]. intros o.
  apply regular_bind; [exact IH|]. intros a. apply regular_ret.
Qed.

Lemma regular_get_own_repos_activity (W : world) (cutoff_iso : string) :
  regular (get_own_repos_activity W cutoff_iso).
Proof.
  unfold get_own_repos_activity. apply regular_bind; [apply regular_request|].
  intros [[|r l]|]; try apply regular_ret. apply regular_own_repos_loop.
Qed.

Lemma regular_get_open_source_contributions (W : world) (cutoff_iso : string) :
  regular (get_open_source_contributions W cutoff_iso).
Proof. unfold get_open_source_contributions. regular. Qed.

(** The records and requests of the loop, repository by repository. *)

Definition record_list (o : option Activity.t) : list Activity.t :=
  match o with Some a => [a] | None => [] end.

Lemma own_repos_loop_cons (W : world) (cutoff_iso : string) (r : Repo.t)
    (l : list Repo.t) :
  value (own_repos_loop W cutoff_iso (r :: l)) =
    (record_list (value (own_repo_step W cutoff_iso r))
     ++ value (own_repos_loop W cutoff_iso l))%list
  /\ requests (own_repos_loop W cutoff_iso (r :: l)) =
    (requests (own_repo_step W cutoff_iso r)
     ++ requests (own_repos_loop W cutoff_iso l))%list.
Proof.
  cbn [own_repos_loop].
  destruct (bind_run (own_repo_step W cutoff_iso r)
              (fun o => recent_repos <- own_repos_loop W cutoff_iso l ;;
                        ret (match o with
                             | Some a => a :: recent_repos
                             | None => recent_repos
                             end))) as (_ & V & R).
  { apply regular_own_repo_step. }
  { intros o. apply regular_bind; [apply regular_own_repos_loop|].
    intros a. apply regular_ret. }
  rewrite V, R. clear V R.
  set (o := value (own_repo_step W cutoff_iso r)).
  destruct (bind_run (own_repos_loop W cutoff_iso l)
              (fun recent_repos =>
                 ret (match o with
                      | Some a => a :: recent_repos
                      | None => recent_repos
                      end))) as (_ & V & R).
  { apply regular_own_repos_loop. }
  { intros a. apply regular_ret. }
  rewrite V, R. unfold value at 1, requests at 3, ret. cbn [fst snd].
  rewrite app_nil_r. destruct o; split; reflexivity.
Qed.

Lemma own_repos_loop_app (W : world) (cutoff_iso : string) (l1 l2 : list Repo.t) :
  value (own_repos_loop W cutoff_iso (l1 ++ l2)) =
    (value (own_repos_loop W cutoff_iso l1)
     ++ value (own_repos_loop W cutoff_iso l2))%list
  /\ requests (own_repos_loop W cutoff_iso (l1 ++ l2)) =
    (requests (own_repos_loop W cutoff_iso l1)
     ++ requests (own_repos_loop W cutoff_iso l2))%list.
Proof.
  induction l1 as [|r l1 [IHv IHr]].
  - split; reflexivity.
  - cbn [app].
    destruct (own_repos_loop_cons W cutoff_iso r (l1 ++ l2)) as [V R].
    destruct (own_repos_loop_cons W cutoff_iso r l1) as [V1 R1].
    rewrite V, R, V1, R1, IHv, IHr, <- !app_assoc. split; reflexivity.
Qed.

(** What [get_own_repos_activity] does on a listing. *)
Lemma get_own_repos_activity_run (W : world) (cutoff_iso : string)
    (l : list Repo.t) (log : list string) :
  rest_repos W repos_url = Some l ->
  get_own_repos_activity W cutoff_iso log =
    (value (own_repos_loop W cutoff_iso l),
     (log ++ repos_url :: requests (own_repos_loop W cutoff_iso l))%list).
Proof.
  intros H. unfold get_own_repos_activity, bind, github_api_request. rewrite H.
  destruct l as [|r l].
  - reflexivity.
  - rewrite (regular_own_repos_loop W cutoff_iso (r :: l)).
    now rewrite <- app_assoc.
Qed.

(** ** Owned repositories *)

(** The same snapshot with another listing of repositories. *)
Definition with_repos (W : world) (repos : list Repo.t) : world :=
  World (fun _ => Some repos) (rest_commits W) (rest_releases W) (rest_tags W)
        (graphql W) (clock W).

Lemma own_repos_loop_with_repos (W : world) (repos : list Repo.t)
    (cutoff_iso : string) (l : list Repo.t) :
  own_repos_loop (with_repos W repos) cutoff_iso l = own_repos_loop W cutoff_iso l.
Proof.
  induction l as [|r l IH]; [reflexivity|].
  cbn [own_repos_loop]. rewrite IH. reflexivity.
Qed.

(** A repository not pushed since the cutoff, or without a commit since,
    gives no record. *)
Lemma own_repo_step_skip (W : world) (cutoff_iso : string) (r : Repo.t) :
  Repo.pushed_at r = None
  \/ (exists p, Repo.pushed_at r = Some p /\ PyStr.lt p cutoff_iso = true)
  \/ rest_commits W (commits_url cutoff_iso r) = None
  \/ rest_commits W (commits_url cutoff_iso r) = Some [] ->
  value (own_repo_step W cutoff_iso r) = None.
Proof.
  intros H. unfold value, own_repo_step.
  destruct (match Repo.fork r with Some b => b | None => false end);
    [reflexivity|].
  destruct (String.eqb _ _); [reflexivity|].
  destruct (Repo.pushed_at r) as [p|] eqn:Ep; [|reflexivity].
  destruct (negb (PyStr.truthy p) || PyStr.lt p cutoff_iso) eqn:Eg;
    [reflexivity|].
  unfold bind, github_api_request.
  destruct H as [H|[(q & Hq & Hlt)|[H|H]]].
  - discriminate H.
  - injection Hq as <-. rewrite Hlt, orb_true_r in Eg. discriminate Eg.
  - rewrite H. reflexivity.
  - rewrite H. reflexivity.
Qed.

(** The release at [published_at] is published on or after the cutoff. *)
Definition published_since (cutoff_iso : string) (release : Release.t) : Prop :=
  exists p, Release.published_at release = Some p /\ p <> ""
            /\ PyStr.lt p cutoff_iso = false.

Lemma recent_release_iff (cutoff_iso : string) (release : Release.t) :
  recent_release cutoff_iso release = true <-> published_since cutoff_iso release.
Proof.
  unfold recent_release, published_since, PyStr.ge, PyStr.lt. split.
  - destruct (Release.published_at release) as [p|]; [|discriminate].
    intros H. apply andb_true_iff in H. destruct H as [Ht Hge].
    exists p. repeat split.
    + intros ->. discriminate Ht.
    + now apply negb_true_iff.
  - intros (p & -> & Hp & Hlt). rewrite Hlt.
    destruct p; [now elim Hp | reflexivity].
Qed.

Lemma filter_none {A : Type} (f : A -> bool) (l : list A) :
  Forall (fun x => f x = false) l -> filter f l = [].
Proof.
  induction 1 as [|x l Hx _ IH]; simpl; [reflexivity | now rewrite Hx].
Qed.

Lemma not_recent (cutoff_iso : string) (l : list Release.t) :
  Forall (fun x => ~ published_since cutoff_iso x) l ->
  Forall (fun x => recent_release cutoff_iso x = false) l.
Proof.
  apply Forall_impl. intros x Hx.
  destruct (recent_release cutoff_iso x) eqn:E; [|reflexivity].
  now apply recent_release_iff in E.
Qed.

(** The repository passes the filters of the loop: not a fork, not the
    profile repository, pushed at [p] since the cutoff, with the commits
    [commits] since the cutoff, at least one. *)
Definition active (W : world) (cutoff_iso : string) (r : Repo.t)
    (p : string) (commits : list Commit.t) : Prop :=
  Repo.fork r <> Some true
  /\ PyStr.lower (Repo.name r) <> PyStr.lower GITHUB_USERNAME
  /\ Repo.pushed_at r = Some p /\ p <> "" /\ PyStr.lt p cutoff_iso = false
  /\ rest_commits W (commits_url cutoff_iso r) = Some commits
  /\ commits <> [].

(** The step on an active repository, up to the choice of the tag. *)
Lemma own_repo_step_active (W : world) (cutoff_iso : string) (r : Repo.t)
    (p : string) (commits : list Commit.t) (log : list string) :
  active W cutoff_iso r p commits ->
  own_repo_step W cutoff_iso r log =
  (let recent_releases :=
     match rest_releases W (releases_url r) with
     | Some l => filter (recent_release cutoff_iso) l
     | None => []
     end in
   let latest :=
     match recent_releases with
     | rel :: _ => (Some (Release.tag_name rel), Some (Release.html_url rel))
     | [] => (None, None)
     end in
   let record (latest' : option string * option string) :=
     Some (Activity.Make
             (Activity.repo (List.length commits)
                (0 <? List.length recent_releases)%nat
                (fst latest') (snd latest'))
             (Repo.name r) (Repo.html_url r) p) in
   let log2 := (log ++ [commits_url cutoff_iso r; releases_url r])%list in
   if negb (PyStr.truthy_opt (fst latest)) then
     match rest_tags W (tags_url r) with
     | Some (t :: _) =>
         (record (Some (Tag.name t),
                  Some (Repo.html_url r ++ "/releases/tag/" ++ Tag.name t)),
          (log2 ++ [tags_url r])%list)
     | _ => (record latest, (log2 ++ [tags_url r])%list)
     end
   else (record latest, log2)).
Proof.
  intros (Hf & Hn & Hp & Hne & Hlt & Hc & Hcs).
  unfold own_repo_step.
  destruct (Repo.fork r) as [[|]|]; try congruence;
    (destruct (String.eqb_spec (PyStr.lower (Repo.name r))
                               (PyStr.lower GITHUB_USERNAME)); [congruence|]);
    rewrite Hp; (destruct p; [congruence|]); cbn [PyStr.truthy negb orb];
    rewrite Hlt; unfold bind, github_api_request, ret; rewrite Hc;
    (destruct commits as [|c0 cs]; [congruence|]); cbn [List.length Nat.eqb];
    cbv zeta;
    (destruct (negb (PyStr.truthy_opt _));
     [destruct (rest_tags W (tags_url r)) as [[|t ts]|]|]);
    rewrite <- ?app_assoc; reflexivity.
Qed.

(** C3: a repository of the listing whose last push is missing or
    strictly before the cutoff, or whose commits since the cutoff are none
    (the fetch failed or returned an empty list), gets no record from
    [get_own_repos_activity]: the records are those of the listing without
    it, the records of the repositories before it followed by those of
    the repositories after it. *)
Theorem stale_or_idle_repo_has_no_record (W : world) (cutoff_iso : string)
    (l1 : list Repo.t) (r : Repo.t) (l2 : list Repo.t) (log : list string) :
  rest_repos W repos_url = Some (l1 ++ r :: l2)%list ->
  (Repo.pushed_at r = None
   \/ (exists p, Repo.pushed_at r = Some p /\ PyStr.lt p cutoff_iso = true)
   \/ rest_commits W (commits_url cutoff_iso r) = None
   \/ rest_commits W (commits_url cutoff_iso r) = Some []) ->
  fst (get_own_repos_activity W cutoff_iso log) =
    fst (get_own_repos_activity (with_repos W (l1 ++ l2)) cutoff_iso log)
  /\ fst (get_own_repos_activity W cutoff_iso log) =
       (value (own_repos_loop W cutoff_iso l1)
        ++ value (own_repos_loop W cutoff_iso l2))%list.
Proof.
  intros Hl Hr.
  rewrite (get_own_repos_activity_run W cutoff_iso _ log Hl).
  rewrite (get_own_repos_activity_run (with_repos W (l1 ++ l2)) cutoff_iso
             (l1 ++ l2) log eq_refl).
  cbn [fst]. rewrite own_repos_loop_with_repos.
  destruct (own_repos_loop_app W cutoff_iso l1 (r :: l2)) as [V _].
  destruct (own_repos_loop_cons W cutoff_iso r l2) as [V' _].
  destruct (own_repos_loop_app W cutoff_iso l1 l2) as [V'' _].
  rewrite V, V', V'', (own_repo_step_skip W cutoff_iso r Hr).
  split; reflexivity.
Qed.

(** A snapshot for the examples: the repositories and the replies about
    each of them. *)
Definition example_cutoff : string := "2026-09-05T00:00:00Z".

Definition example_repo (name pushed_at : string) : Repo.t :=
  Repo.Make (Some false) name ("jimyag/" ++ name)
            ("https://github.com/jimyag/" ++ name) (Some pushed_at).

Definition example_world (repos : list Repo.t)
    (commits : string -> option (list Commit.t))
    (releases : string -> option (list Release.t))
    (tags : string -> option (list Tag.t))
    (pr_repos : list RepoContribution.t) : world :=
  World (fun _ => Some repos) commits releases tags
        (fun _ => Some (GraphQL.Make (Some pr_repos)))
        (fun _ => Ok example_cutoff).

Definition stale_world : world :=
  example_world
    [example_repo "old" "2026-08-01T00:00:00Z"]
    (fun _ => Some [Commit.Make "c1"])
    (fun _ => None) (fun _ => None) [].

Lemma stale_or_idle_repo_has_no_record_witness :
  fst (get_own_repos_activity stale_world example_cutoff []) = [].
Proof.
  destruct (stale_or_idle_repo_has_no_record stale_world example_cutoff
              [] (example_repo "old" "2026-08-01T00:00:00Z") [] [])
    as [_ H].
  - reflexivity.
  - right. left. exists "2026-08-01T00:00:00Z". split; reflexivity.
  - exact H.
Defined.

(** A reply off GitHub's schema, for the record: a release published
    since the cutoff whose [tag_name] is the empty text (GitHub gives
    every release a tag name).  The loop keeps the empty text in
    [latest_tag], and its guard [if not latest_tag] takes it for a
    missing tag. *)
Definition untagged_release_world : world :=
  example_world
    [example_repo "tool" "2026-10-01T00:00:00Z"]
    (fun _ => Some [Commit.Make "c1"])
    (fun _ => Some [Release.Make (Some "2026-10-01T00:00:00Z") ""
                       "https://github.com/jimyag/tool/releases/1"])
    (fun _ => Some [Tag.Make "v0"]) [].

(** On that reply the tags are requested and the first tag, not the
    release, goes in the record. *)
Lemma untagged_release_consults_tags :
  let r := example_repo "tool" "2026-10-01T00:00:00Z" in
  let rel := Release.Make (Some "2026-10-01T00:00:00Z") ""
               "https://github.com/jimyag/tool/releases/1" in
  rest_releases untagged_release_world (releases_url r) = Some [rel]
  /\ published_since example_cutoff rel
  /\ In (tags_url r)
        (snd (get_own_repos_activity untagged_release_world example_cutoff []))
  /\ map Activity.type
         (fst (get_own_repos_activity untagged_release_world example_cutoff []))
     = [Activity.repo 1 true (Some "v0")
          (Some "https://github.com/jimyag/tool/releases/tag/v0")]
  /\ map Activity.type
         (fst (get_own_repos_activity untagged_release_world example_cutoff []))
     <> [Activity.repo 1 true (Some (Release.tag_name rel))
           (Some (Release.html_url rel))].
Proof.
  cbv zeta. split; [reflexivity|]. split.
  - exists "2026-10-01T00:00:00Z". repeat split; discriminate.
  - split; [|split].
    + vm_compute. right. right. right. left. reflexivity.
    + vm_compute. reflexivity.
    + vm_compute. discriminate.
Qed.

(** C4: for an active repository of the listing, if the releases fetch
    returns a release published on or after the cutoff, the record takes
    [latest_tag] and [latest_tag_url] from the first such release
    ([tag_name], a non-empty text as GitHub has it, and [html_url]) and
    the requests made for the repository are the commits and the
    releases only: the tags are not asked for.  If no release is
    published on or after the cutoff (or the fetch fails) and the tags
    fetch returns a non-empty list, the record takes the name of the
    first tag and the URL [<html_url>/releases/tag/<name>]. *)
Theorem latest_tag_from_release_else_tags (W : world) (cutoff_iso : string)
    (l1 : list Repo.t) (r : Repo.t) (l2 : list Repo.t)
    (p : string) (commits : list Commit.t) (log : list string) :
  rest_repos W repos_url = Some (l1 ++ r :: l2)%list ->
  active W cutoff_iso r p commits ->
  let before := own_repos_loop W cutoff_iso l1 in
  let after := own_repos_loop W cutoff_iso l2 in
  let record has_release latest_tag latest_tag_url :=
    Activity.Make
      (Activity.repo (List.length commits) has_release latest_tag latest_tag_url)
      (Repo.name r) (Repo.html_url r) p in
  (forall older rel more,
      rest_releases W (releases_url r) = Some (older ++ rel :: more)%list ->
      Forall (fun x => ~ published_since cutoff_iso x) older ->
      published_since cutoff_iso rel ->
      Release.tag_name rel <> "" ->
      get_own_repos_activity W cutoff_iso log =
        ((value before
          ++ record true (Some (Release.tag_name rel)) (Some (Release.html_url rel))
             :: value after)%list,
         (log ++ repos_url :: requests before
          ++ [commits_url cutoff_iso r; releases_url r] ++ requests after)%list))
  /\ (forall t ts,
      (rest_releases W (releases_url r) = None
       \/ exists rels, rest_releases W (releases_url r) = Some rels
                       /\ Forall (fun x => ~ published_since cutoff_iso x) rels) ->
      rest_tags W (tags_url r) = Some (t :: ts) ->
      get_own_repos_activity W cutoff_iso log =
        ((value before
          ++ record false (Some (Tag.name t))
               (Some (Repo.html_url r ++ "/releases/tag/" ++ Tag.name t)%string)
             :: value after)%list,
         (log ++ repos_url :: requests before
          ++ [commits_url cutoff_iso r; releases_url r; tags_url r]
          ++ requests after)%list)).
Proof.
  intros Hl Ha before after record.
  rewrite (get_own_repos_activity_run W cutoff_iso _ log Hl).
  destruct (own_repos_loop_app W cutoff_iso l1 (r :: l2)) as [V R].
  destruct (own_repos_loop_cons W cutoff_iso r l2) as [V' R'].
  rewrite V, R, V', R'. clear V R V' R'.
  pose proof (own_repo_step_active W cutoff_iso r p commits [] Ha) as Hstep.
  cbv zeta in Hstep. split.
  - intros older rel more Hrel Hold Hpub Htag.
    unfold value at 2, requests at 2. rewrite Hstep, Hrel, filter_app.
    rewrite (filter_none _ _ (not_recent _ _ Hold)). cbn [app filter].
    apply recent_release_iff in Hpub. rewrite Hpub. cbn [fst snd PyStr.truthy_opt].
    destruct (Release.tag_name rel) eqn:Et; [now elim Htag|].
    reflexivity.
  - intros t ts Hrel Htags.
    assert (E : match rest_releases W (releases_url r) with
                | Some l => filter (recent_release cutoff_iso) l
                | None => []
                end = []).
    { destruct Hrel as [->|(rels & -> & Hrels)]; [reflexivity|].
      apply filter_none, not_recent, Hrels. }
    unfold value at 2, requests at 2. rewrite Hstep, E, Htags. reflexivity.
Qed.

Definition released_world : world :=
  example_world
    [example_repo "tool" "2026-10-01T00:00:00Z"]
    (fun _ => Some [Commit.Make "c1"; Commit.Make "c2"])
    (fun _ => Some [Release.Make (Some "2026-10-01T00:00:00Z") "v2"
                       "https://github.com/jimyag/tool/releases/2";
                    Release.Make (Some "2026-01-01T00:00:00Z") "v1"
                       "https://github.com/jimyag/tool/releases/1"])
    (fun _ => Some [Tag.Make "v2"; Tag.Make "v1"]) [].

Definition tagged_world : world :=
  example_world
    [example_repo "tool" "2026-10-01T00:00:00Z"]
    (fun _ => Some [Commit.Make "c1"])
    (fun _ => Some [Release.Make (Some "2026-01-01T00:00:00Z") "v1"
                       "https://github.com/jimyag/tool/releases/1"])
    (fun _ => Some [Tag.Make "v1"; Tag.Make "v0"]) [].

Lemma example_repo_active (W : world) (commits : list Commit.t) :
  rest_commits W (commits_url example_cutoff
                    (example_repo "tool" "2026-10-01T00:00:00Z")) = Some commits ->
  commits <> [] ->
  active W example_cutoff (example_repo "tool" "2026-10-01T00:00:00Z")
         "2026-10-01T00:00:00Z" commits.
Proof.
  intros Hc Hne. unfold active. repeat split; try assumption; discriminate.
Qed.

Lemma latest_tag_from_release_else_tags_witness :
  get_own_repos_activity released_world example_cutoff [] =
    ([Activity.Make
        (Activity.repo 2 true (Some "v2")
           (Some "https://github.com/jimyag/tool/releases/2"))
        "tool" "https://github.com/jimyag/tool" "2026-10-01T00:00:00Z"],
     [repos_url;
      "https://api.github.com/repos/jimyag/tool/commits?since=2026-09-05T00:00:00Z&per_page=100";
      "https://api.github.com/repos/jimyag/tool/releases?per_page=10"])
  /\ get_own_repos_activity tagged_world example_cutoff [] =
    ([Activity.Make
        (Activity.repo 1 false (Some "v1")
           (Some "https://github.com/jimyag/tool/releases/tag/v1"))
        "tool" "https://github.com/jimyag/tool" "2026-10-01T00:00:00Z"],
     [repos_url;
      "https://api.github.com/repos/jimyag/tool/commits?since=2026-09-05T00:00:00Z&per_page=100";
      "https://api.github.com/repos/jimyag/tool/releases?per_page=10";
      "https://api.github.com/repos/jimyag/tool/tags?per_page=5"]).
Proof.
  split.
  - refine (proj1 (latest_tag_from_release_else_tags released_world
              example_cutoff [] (example_repo "tool" "2026-10-01T00:00:00Z") []
              "2026-10-01T00:00:00Z" [Commit.Make "c1"; Commit.Make "c2"] []
              eq_refl _)
              [] (Release.Make (Some "2026-10-01T00:00:00Z") "v2"
                    "https://github.com/jimyag/tool/releases/2")
              [Release.Make (Some "2026-01-01T00:00:00Z") "v1"
                 "https://github.com/jimyag/tool/releases/1"]
              eq_refl _ _ _).
    + apply example_repo_active; [reflexivity | discriminate].
    + constructor.
    + exists "2026-10-01T00:00:00Z". repeat split; discriminate.
    + discriminate.
  - refine (proj2 (latest_tag_from_release_else_tags tagged_world
              example_cutoff [] (example_repo "tool" "2026-10-01T00:00:00Z") []
              "2026-10-01T00:00:00Z" [Commit.Make "c1"] []
              eq_refl _)
              (Tag.Make "v1") [Tag.Make "v0"] _ eq_refl).
    + apply example_repo_active; [reflexivity | discriminate].
    + right. eexists. split; [reflexivity|].
      constructor; [|constructor].
      intros (q & Hq & _ & Hlt). injection Hq as <-. vm_compute in Hlt.
      discriminate Hlt.
Defined.

(** What every record of [get_own_repos_activity] satisfies. *)
Definition own_record_ok (a : Activity.t) : Prop :=
  exists n has_release latest_tag latest_tag_url,
    Activity.type a = Activity.repo n has_release latest_tag latest_tag_url
    /\ 1 <= n
    /\ (latest_tag <> None -> latest_tag_url <> None).

Lemma own_repo_step_ok (W : world) (cutoff_iso : string) (r : Repo.t)
    (a : Activity.t) :
  value (own_repo_step W cutoff_iso r) = Some a -> own_record_ok a.
Proof.
  unfold value, own_repo_step.
  destruct (match Repo.fork r with Some b => b | None => false end);
    [discriminate|].
  destruct (String.eqb _ _); [discriminate|].
  destruct (Repo.pushed_at r) as [p|]; [|discriminate].
  destruct (negb (PyStr.truthy p) || PyStr.lt p cutoff_iso); [discriminate|].
  unfold bind, github_api_request, ret.
  destruct (rest_commits W (commits_url cutoff_iso r)) as [[|c cs]|];
    try discriminate.
  cbn [List.length Nat.eqb]. cbv zeta.
  destruct (match rest_releases W (releases_url r) with
            | Some l => filter (recent_release cutoff_iso) l
            | None => []
            end) as [|rel rels]; cbn [fst snd PyStr.truthy_opt negb].
  - destruct (rest_tags W (tags_url r)) as [[|t ts]|]; cbn [fst snd];
      intros H; injection H as <-; do 4 eexists;
      (split; [reflexivity|]); (split; [cbn [List.length]; lia|]);
      congruence.
  - destruct (negb (PyStr.truthy (Release.tag_name rel)));
      [destruct (rest_tags W (tags_url r)) as [[|t ts]|]|]; cbn [fst snd];
      intros H; injection H as <-; do 4 eexists;
      (split; [reflexivity|]); (split; [cbn [List.length]; lia|]);
      congruence.
Qed.

Lemma own_repos_loop_ok (W : world) (cutoff_iso : string) (l : list Repo.t) :
  Forall own_record_ok (value (own_repos_loop W cutoff_iso l)).
Proof.
  induction l as [|r l IH]; [constructor|].
  destruct (own_repos_loop_cons W cutoff_iso r l) as [V _]. rewrite V.
  apply Forall_app. split; [|exact IH].
  destruct (value (own_repo_step W cutoff_iso r)) as [a|] eqn:E;
    [|constructor].
  repeat constructor. now apply (own_repo_step_ok W cutoff_iso r).
Qed.

(** C10: every record of [get_own_repos_activity] is a repository record
    with a commit count of at least 1 and with a [latest_tag_url] whenever
    it has a [latest_tag]; so its line always carries the commits stat,
    and when it shows a tag the URL of the tag is there. *)
Theorem own_records_have_commits_and_tag_url (W : world) (cutoff_iso : string)
    (log : list string) (a : Activity.t) :
  In a (fst (get_own_repos_activity W cutoff_iso log)) ->
  exists n has_release latest_tag latest_tag_url,
    Activity.type a = Activity.repo n has_release latest_tag latest_tag_url
    /\ 1 <= n
    /\ (latest_tag <> None -> latest_tag_url <> None)
    /\ (PyStr.truthy_opt latest_tag = false ->
        activity_line a =
        "- [" ++ Activity.name a ++ "](" ++ Activity.url a ++ ") ("
        ++ PyStr.of_nat n ++ " commits)")
    /\ (PyStr.truthy_opt latest_tag = true ->
        exists t u, latest_tag = Some t /\ latest_tag_url = Some u
          /\ activity_line a =
             "- [" ++ Activity.name a ++ "](" ++ Activity.url a ++ ") ("
             ++ PyStr.of_nat n ++ " commits, [" ++ t ++ "](" ++ u ++ "))").
Proof.
  intros Hin.
  assert (Hok : own_record_ok a).
  { rewrite (regular_get_own_repos_activity W cutoff_iso log) in Hin.
    cbn [fst] in Hin. revert Hin. unfold value, get_own_repos_activity, bind,
      github_api_request.
    destruct (rest_repos W repos_url) as [[|r l]|]; try (intros []).
    intros Hin. pose proof (own_repos_loop_ok W cutoff_iso (r :: l)) as HF.
    rewrite Forall_forall in HF. apply HF.
    rewrite (regular_own_repos_loop W cutoff_iso (r :: l)) in Hin. exact Hin. }
  destruct Hok as (n & hr & tag & tagurl & Ht & Hn & Hurl).
  exists n, hr, tag, tagurl. repeat split; try assumption.
  - intros Hfalse. unfold activity_line. rewrite Ht, Hfalse.
    destruct n as [|n]; [lia|]. cbn [Nat.ltb Nat.leb app PyStr.join].
    rewrite !append_assoc. reflexivity.
  - intros Htrue. destruct tag as [t|]; [|discriminate Htrue].
    destruct tagurl as [u|]; [|elim Hurl; [discriminate | reflexivity]].
    exists t, u. repeat split. unfold activity_line. rewrite Ht, Htrue.
    destruct n as [|n]; [lia|]. cbn [Nat.ltb Nat.leb app PyStr.join fmt_opt].
    rewrite !append_assoc. reflexivity.
Qed.

Lemma own_records_have_commits_and_tag_url_witness :
  exists n has_release latest_tag latest_tag_url,
    Activity.repo 2 true (Some "v2")
      (Some "https://github.com/jimyag/tool/releases/2")
    = Activity.repo n has_release latest_tag latest_tag_url
    /\ 1 <= n /\ (latest_tag <> None -> latest_tag_url <> None).
Proof.
  destruct (own_records_have_commits_and_tag_url released_world example_cutoff []
              (Activity.Make
                 (Activity.repo 2 true (Some "v2")
                    (Some "https://github.com/jimyag/tool/releases/2"))
                 "tool" "https://github.com/jimyag/tool" "2026-10-01T00:00:00Z"))
    as (n & hr & tag & tagurl & Ht & Hn & Hurl & _).
  - left. reflexivity.
  - exists n, hr, tag, tagurl. repeat split; assumption.
Defined.

(** ** Contributions *)

(** A hexadecimal digit, of either case. *)
Definition is_hex_digit (c : ascii) : bool :=
  PyStr.char_in c "0123456789abcdefABCDEF".

(** The same snapshot with another list of contribution entries. *)
Definition with_contributions (W : world)
    (pr_repos : list RepoContribution.t) : world :=
  World (rest_repos W) (rest_commits W) (rest_releases W) (rest_tags W)
        (fun _ => Some (GraphQL.Make (Some pr_repos))) (clock W).

Lemma hex_digit_lower (c : ascii) :
  is_hex_digit c = true ->
  PyStr.char_in (PyStr.lower_char c) "0123456789abcdef" = true.
Proof.
  destruct c as [[] [] [] [] [] [] [] []]; vm_compute; intros H;
    solve [reflexivity | discriminate H].
Qed.

Lemma hex_login_lower (s : string) :
  PyStr.all_chars is_hex_digit s = true ->
  PyStr.all_chars (fun c => PyStr.char_in c "0123456789abcdef")
                  (PyStr.lower s) = true.
Proof.
  induction s as [|c s IH]; [reflexivity|].
  cbn [PyStr.all_chars PyStr.lower]. intros H.
  apply andb_true_iff in H. destruct H as [Hc Hs].
  now rewrite (hex_digit_lower c Hc), (IH Hs).
Qed.

Lemma contributions_loop_app (cutoff_iso : string)
    (l1 l2 : list RepoContribution.t) :
  contributions_loop cutoff_iso (l1 ++ l2) =
  (contributions_loop cutoff_iso l1 ++ contributions_loop cutoff_iso l2)%list.
Proof.
  induction l1 as [|e l1 IH]; [reflexivity|].
  cbn [app contributions_loop]. rewrite IH.
  destruct (contribution_step cutoff_iso e); reflexivity.
Qed.

(** C5: an entry of the GraphQL result whose owner login is longer than
    30 characters and made of hexadecimal digits only gets no record from
    [get_open_source_contributions], whatever its pull requests: the
    records are those of the result without the entry. *)
Theorem hash_like_owner_has_no_record (W : world) (cutoff_iso : string)
    (l1 : list RepoContribution.t) (e : RepoContribution.t)
    (l2 : list RepoContribution.t) (log : list string) :
  graphql W contributions_query = Some (GraphQL.Make (Some (l1 ++ e :: l2)%list)) ->
  30 < String.length (Repository.owner_login (RepoContribution.repository e)) ->
  PyStr.all_chars is_hex_digit
    (Repository.owner_login (RepoContribution.repository e)) = true ->
  fst (get_open_source_contributions W cutoff_iso log) =
    fst (get_open_source_contributions (with_contributions W (l1 ++ l2))
           cutoff_iso log)
  /\ fst (get_open_source_contributions W cutoff_iso log) =
       (contributions_loop cutoff_iso l1 ++ contributions_loop cutoff_iso l2)%list.
Proof.
  intros Hq Hlen Hhex.
  assert (Hstep : contribution_step cutoff_iso e = None).
  { unfold contribution_step.
    destruct (Repository.isPrivate _); [reflexivity|].
    destruct (String.eqb _ _); [reflexivity|].
    unfold hash_like. apply Nat.ltb_lt in Hlen.
    now rewrite Hlen, (hex_login_lower _ Hhex). }
  unfold get_open_source_contributions, bind, github_graphql_request, ret.
  rewrite Hq. cbn [graphql with_contributions fst].
  rewrite !contributions_loop_app. cbn [contributions_loop].
  rewrite Hstep. split; reflexivity.
Qed.

Definition hash_owner_entry : RepoContribution.t :=
  RepoContribution.Make
    (Repository.Make "abcdefabcdefabcdefabcdefabcdefabcdef/repo"
       "https://github.com/abcdefabcdefabcdefabcdefabcdefabcdef/repo" false
       "abcdefabcdefabcdefabcdefabcdefabcdef")
    [PullRequest.Make "fix" "https://github.com/x/pull/1"
       (Some "2026-10-01T00:00:00Z") "MERGED"].

Lemma hash_like_owner_has_no_record_witness :
  fst (get_open_source_contributions
         (example_world [] (fun _ => None) (fun _ => None) (fun _ => None)
            [hash_owner_entry])
         example_cutoff []) = [].
Proof.
  refine (proj2 (hash_like_owner_has_no_record
                   (example_world [] (fun _ => None) (fun _ => None)
                      (fun _ => None) [hash_owner_entry])
                   example_cutoff [] hash_owner_entry [] [] eq_refl _ _)).
  - vm_compute. lia.
  - reflexivity.
Defined.

(** ** Merge and rank *)

Lemma firstn_two {A : Type} (n : nat) (a b : A) :
  2 <= n -> firstn n [a; b] = [a; b].
Proof.
  destruct n as [|[|n]]; [lia | lia |]. intros _. cbn [firstn].
  now rewrite firstn_nil.
Qed.

(** C2: [get_all_activity] returns the owned-repository records followed
    by the contribution records, sorted in descending order of
    [latest_activity] (strings compared character by character) and cut
    to the first [limit] elements; records of one timestamp keep their
    order, the owned repositories before the contributions.  With one
    repository record and one later contribution record the result is
    the contribution, then the repository. *)
Theorem get_all_activity_ranked (W : world) (months limit : Z)
    (cutoff_iso : string) (log : list string) :
  clock W (months * 30) = Ok cutoff_iso ->
  (0 <= limit)%Z ->
  let own_repos := value (get_own_repos_activity W cutoff_iso) in
  let contributions := value (get_open_source_contributions W cutoff_iso) in
  exists ranked,
    fst (get_all_activity W months limit log) = Ok (firstn (Z.to_nat limit) ranked)
    /\ Permutation ranked (own_repos ++ contributions)
    /\ StronglySorted (descending Activity.latest_activity) ranked
    /\ (forall t,
          filter (fun a => String.eqb (Activity.latest_activity a) t) ranked =
          (filter (fun a => String.eqb (Activity.latest_activity a) t) own_repos
           ++ filter (fun a => String.eqb (Activity.latest_activity a) t)
                contributions)%list)
    /\ (forall a b,
          own_repos = [a] -> contributions = [b] ->
          PyStr.lt (Activity.latest_activity a) (Activity.latest_activity b) = true ->
          (2 <= limit)%Z ->
          fst (get_all_activity W months limit log) = Ok [b; a]).
Proof.
  intros Hclock Hlimit own_repos contributions.
  assert (E : fst (get_all_activity W months limit log) =
              Ok (firstn (Z.to_nat limit)
                    (list_sort Activity.latest_activity true
                       (own_repos ++ contributions)))).
  { unfold get_all_activity. rewrite Hclock. unfold bind.
    rewrite (regular_get_own_repos_activity W cutoff_iso log).
    rewrite (regular_get_open_source_contributions W cutoff_iso).
    unfold ret, slice_to. cbn [fst].
    destruct (Z.ltb_spec limit 0); [lia | reflexivity]. }
  destruct (list_sort_reverse_spec Activity.latest_activity
              (own_repos ++ contributions)) as (HP & HS & HF).
  exists (list_sort Activity.latest_activity true (own_repos ++ contributions)).
  repeat split; try assumption.
  - intros t. rewrite HF. apply filter_app.
  - intros a b Ha Hb Hlt H2. rewrite E, Ha, Hb.
    unfold list_sort. cbn [app rev stable_sort insert]. rewrite Hlt.
    cbn [rev app]. rewrite firstn_two by lia. reflexivity.
Qed.

Definition ranking_world : world :=
  example_world
    [example_repo "RepoA" "2026-10-01T00:00:00Z"]
    (fun _ => Some [Commit.Make "c1"])
    (fun _ => None) (fun _ => None)
    [RepoContribution.Make
       (Repository.Make "other/ContribB" "https://github.com/other/ContribB"
          false "other")
       [PullRequest.Make "fix" "https://github.com/other/ContribB/pull/1"
          (Some "2026-10-02T00:00:00Z") "MERGED"]].

Lemma get_all_activity_ranked_witness :
  fst (get_all_activity ranking_world 2 10 []) =
  Ok [Activity.Make (Activity.contribution 1) "other/ContribB"
        "https://github.com/other/ContribB" "2026-10-02T00:00:00Z";
      Activity.Make (Activity.repo 1 false None None) "RepoA"
        "https://github.com/jimyag/RepoA" "2026-10-01T00:00:00Z"].
Proof.
  destruct (get_all_activity_ranked ranking_world 2 10 example_cutoff [])
    as (ranked & _ & _ & _ & _ & H).
  - reflexivity.
  - lia.
  - apply H; [reflexivity | reflexivity | reflexivity | lia].
Defined.

(** ** Renderer *)

(** C9: the empty list of activities renders as the placeholder. *)
Theorem no_activity_placeholder :
  generate_activity_markdown [] = "_No recent activity_".
Proof. reflexivity. Qed.

(** ** The matcher *)

(** The loop of [pattern_sub], one iteration unfolded. *)
Lemma pattern_sub_step (name : string) (tmpl : list Re.piece) (s : string) :
  pattern_sub name tmpl s =
  match Re.search (start_marker name) (end_marker name) s with
  | None => s
  | Some (pre, g, rest) =>
      pre ++ Re.expand tmpl (Re.MkMatch (start_marker name) g (end_marker name))
          ++ pattern_sub name tmpl rest
  end.
Proof.
  funelim (pattern_sub name tmpl s).
  - rewrite e. reflexivity.
  - rewrite e. reflexivity.
Qed.

(** ** Occurrences of the markers in a document *)

(** The document holds a start marker followed, later on, by an end
    marker. *)
Definition has_pair (st en s : string) : Prop :=
  exists pre g rest, s = pre ++ st ++ g ++ en ++ rest.

(** In [g ++ lit], the text [lit] occurs for the first time at the very
    end: [g] runs up to the first occurrence of [lit]. *)
Definition ends_first (lit g : string) : Prop :=
  forall a b, g ++ lit = a ++ lit ++ b -> b = "".

(** No backslash in a text. *)
Definition no_backslash (s : string) : Prop :=
  PyStr.char_in PyStr.backslash s = false.

Lemma append_inv_head (a b c : string) : a ++ b = a ++ c -> b = c.
Proof.
  induction a as [|x a IH]; simpl; intros H; [assumption|].
  inversion H. auto.
Qed.

Lemma append_eq_append (a b c d : string) :
  a ++ b = c ++ d ->
  exists e, (a = c ++ e /\ d = e ++ b) \/ (c = a ++ e /\ b = e ++ d).
Proof.
  revert c; induction a as [|x a IH]; intros c H; simpl in H.
  - exists c. right. split; [reflexivity | assumption].
  - destruct c as [|y c]; simpl in H.
    + exists (String x a). left. split; [reflexivity | now symmetry].
    + inversion H; subst. destruct (IH c H2) as [e [[-> ->]|[-> ->]]];
        exists e; [left | right]; split; reflexivity.
Qed.

Lemma length_zero_nil (s : string) : String.length s = 0 -> s = "".
Proof. destruct s; [reflexivity | discriminate]. Qed.

Lemma strip_prefix_none (lit s r : string) :
  Re.strip_prefix lit s = None -> s <> lit ++ r.
Proof.
  intros H ->. rewrite strip_prefix_app in H. discriminate H.
Qed.

Lemma ends_first_nil (lit : string) : ends_first lit "".
Proof.
  intros a b H. simpl in H. apply length_zero_nil.
  apply (f_equal String.length) in H. rewrite !length_append in H. lia.
Qed.

Lemma ends_first_tail (lit : string) (c : ascii) (g : string) :
  ends_first lit (String c g) -> ends_first lit g.
Proof.
  intros H a b E. apply (H (String c a) b). simpl. now rewrite E.
Qed.

(** If [lit] starts the text [g ++ lit ++ r] and [g] is not empty, then
    [lit] already occurs in [g ++ lit] before the end. *)
Lemma prefix_inside (lit g r r0 : string) :
  g <> "" -> g ++ lit ++ r = lit ++ r0 -> exists b, b <> "" /\ g ++ lit = lit ++ b.
Proof.
  intros Hg H. rewrite <- append_assoc in H.
  destruct (append_eq_append _ _ _ _ H) as [e [[E1 E2]|[E1 E2]]].
  - exists e. split; [|assumption]. intros ->.
    apply (f_equal String.length) in E1. rewrite !length_append in E1. simpl in E1.
    destruct g; [congruence | simpl in E1; lia].
  - apply (f_equal String.length) in E1. rewrite !length_append in E1.
    destruct g; [congruence | simpl in E1; lia].
Qed.

Lemma lazy_until_first (lit g r : string) :
  ends_first lit g -> Re.lazy_until lit (g ++ lit ++ r) = Some (g, r).
Proof.
  induction g as [|c g IH]; intros H; rewrite lazy_until_eq.
  - simpl. now rewrite strip_prefix_app.
  - destruct (Re.strip_prefix lit (String c g ++ lit ++ r)) eqn:E.
    + apply strip_prefix_sound in E.
      destruct (prefix_inside lit (String c g) r s) as [b [Hb Eb]];
        [discriminate | assumption |].
      exfalso. apply Hb. apply (H "" b). exact Eb.
    + simpl. rewrite (IH (ends_first_tail _ _ _ H)). reflexivity.
Qed.

Lemma lazy_until_ends_first (lit s g r : string) :
  Re.lazy_until lit s = Some (g, r) -> ends_first lit g.
Proof.
  revert g; induction s as [|c s IH]; intros g; rewrite lazy_until_eq;
    destruct (Re.strip_prefix lit _) eqn:E; intros H;
    try (inversion H; subst; now apply ends_first_nil); try discriminate H.
  revert H. destruct (Re.lazy_until lit s) as [[g' r']|] eqn:E'; intros H;
    [|discriminate H].
  inversion H; subst. intros a b Hab.
  destruct a as [|x a]; simpl in Hab.
  - exfalso. apply lazy_until_sound in E'.
    apply (strip_prefix_none _ _ (b ++ r) E).
    rewrite E'. rewrite <- (append_assoc lit b r). rewrite <- Hab.
    simpl. now rewrite append_assoc.
  - inversion Hab; subst. eapply (IH g' eq_refl); eassumption.
Qed.

Lemma lazy_until_complete (lit x y : string) :
  Re.lazy_until lit (x ++ lit ++ y) <> None.
Proof.
  induction x as [|c x IH]; rewrite lazy_until_eq.
  - simpl. now rewrite strip_prefix_app.
  - destruct (Re.strip_prefix lit _); [discriminate|]. simpl.
    destruct (Re.lazy_until lit (x ++ lit ++ y)) as [[g r]|]; [discriminate|].
    now elim IH.
Qed.

Lemma match_here_complete (st en g r : string) :
  Re.match_here st en (st ++ g ++ en ++ r) <> None.
Proof.
  unfold Re.match_here. rewrite strip_prefix_app. apply lazy_until_complete.
Qed.

Lemma search_complete (st en s : string) :
  has_pair st en s -> Re.search st en s <> None.
Proof.
  intros (pre & g & rest & ->).
  induction pre as [|c pre IH]; rewrite search_eq.
  - simpl. pose proof (match_here_complete st en g rest) as H.
    destruct (Re.match_here st en _) as [[g' r']|]; [discriminate | now elim H].
  - destruct (Re.match_here st en _) as [[g' r']|]; [discriminate|]. simpl.
    destruct (Re.search st en _) as [[[p' g'] r']|]; [discriminate | now elim IH].
Qed.

Lemma search_none_iff (st en s : string) :
  Re.search st en s = None <-> ~ has_pair st en s.
Proof.
  split.
  - intros H Hp. now apply (search_complete _ _ _ Hp).
  - intros H. destruct (Re.search st en s) as [[[pre g] rest]|] eqn:E;
      [|reflexivity].
    elim H. exists pre, g, rest. now apply search_sound.
Qed.

Lemma match_here_none_inside (st en pre : string) (c : ascii) (x : string) :
  ends_first st (String c pre) ->
  Re.match_here st en (String c pre ++ st ++ x) = None.
Proof.
  intros H. unfold Re.match_here.
  destruct (Re.strip_prefix st _) eqn:E; [|reflexivity].
  apply strip_prefix_sound in E.
  destruct (prefix_inside st (String c pre) x s) as [b [Hb Eb]];
    [discriminate | assumption |].
  exfalso. apply Hb. apply (H "" b). exact Eb.
Qed.

(** The search finds the first start marker and the first end marker
    after it. *)
Lemma search_first (st en pre g rest : string) :
  ends_first st pre -> ends_first en g ->
  Re.search st en (pre ++ st ++ g ++ en ++ rest) = Some (pre, g, rest).
Proof.
  intros Hpre Hg. induction pre as [|c pre IH]; rewrite search_eq.
  - simpl. unfold Re.match_here. rewrite strip_prefix_app.
    now rewrite (lazy_until_first en g rest Hg).
  - rewrite (match_here_none_inside st en pre c _ Hpre). simpl.
    now rewrite (IH (ends_first_tail _ _ _ Hpre)).
Qed.

Lemma search_ends_first (st en s pre g rest : string) :
  Re.search st en s = Some (pre, g, rest) ->
  ends_first st pre /\ ends_first en g.
Proof.
  revert pre; induction s as [|c s IH]; intros pre; rewrite search_eq;
    destruct (Re.match_here st en _) as [[g' r']|] eqn:E; intros H;
    try discriminate H;
    try (inversion H; subst; split; [apply ends_first_nil|];
         unfold Re.match_here in E;
         destruct (Re.strip_prefix st _); [|discriminate E];
         now apply lazy_until_ends_first in E).
  revert H. destruct (Re.search st en s) as [[[p' g'] r']|] eqn:E'; intros H;
    [|discriminate H].
  inversion H; subst. destruct (IH p' eq_refl) as [Hp Hg]. split; [|exact Hg].
  intros a b Hab. destruct a as [|x a]; simpl in Hab.
  - exfalso. apply search_sound in E'.
    unfold Re.match_here in E.
    destruct (Re.strip_prefix st (String c s)) as [s1|] eqn:E1.
    + apply strip_prefix_sound in E1.
      assert (Hs : st ++ s1 = st ++ (b ++ g ++ en ++ rest)).
      { rewrite <- E1, E'. rewrite <- (append_assoc st b).
        rewrite <- Hab. simpl. now rewrite append_assoc. }
      apply append_inv_head in Hs. subst s1.
      now apply (lazy_until_complete en (b ++ g) rest);
        rewrite append_assoc.
    + apply (strip_prefix_none _ _ (b ++ g ++ en ++ rest) E1).
      rewrite E'. rewrite <- (append_assoc st b). rewrite <- Hab.
      simpl. now rewrite append_assoc.
  - inversion Hab; subst. eapply Hp; eassumption.
Qed.

(** ** Templates without a backslash are literal *)

Lemma no_backslash_cons (c : ascii) (s : string) :
  no_backslash (String c s) <->
  Ascii.eqb c PyStr.backslash = false /\ no_backslash s.
Proof.
  unfold no_backslash. cbn [PyStr.char_in].
  rewrite orb_false_iff, (Ascii.eqb_sym c). reflexivity.
Qed.

Lemma tokenize_plain (s : string) :
  no_backslash s ->
  Re.tokenize s = Some (map Re.Ch (list_ascii_of_string s)).
Proof.
  induction s as [|c s IH]; intros H; [reflexivity|].
  apply no_backslash_cons in H. destruct H as [Hc Hs].
  cbn [Re.tokenize list_ascii_of_string map]. rewrite Hc, (IH Hs). reflexivity.
Qed.

Lemma parse_plain (l : list ascii) :
  Re.parse (map Re.Ch l) = Some (map (fun c => Re.Lit (String c "")) l).
Proof.
  induction l as [|c l IH]; simpl; simp parse; [reflexivity|].
  now rewrite IH.
Qed.

Lemma expand_plain (s : string) (m : Re.groups_of_match) :
  Re.expand (map (fun c => Re.Lit (String c "")) (list_ascii_of_string s)) m = s.
Proof.
  induction s as [|c s IH]; simpl; [reflexivity | now rewrite IH].
Qed.

Lemma no_backslash_app (a b : string) :
  no_backslash a -> no_backslash b -> no_backslash (a ++ b).
Proof.
  induction a as [|c a IH]; intros Ha Hb; [assumption|].
  apply no_backslash_cons in Ha. destruct Ha as [Hc Ha].
  cbn [append]. apply no_backslash_cons. split; [assumption | now apply IH].
Qed.

(** ** Patcher *)

(** The line printed when the markers are missing. *)
Definition missing_markers_warning (section_name : string) : string :=
  "Warning: Section markers for '" ++ section_name ++ "' not found in README".

(** The replacement text of a section: the markers around the body. *)
Definition replacement (section_name new_content : string) : string :=
  start_marker section_name ++ PyStr.nl ++ new_content ++ PyStr.nl
  ++ end_marker section_name.

(** The template of a text without backslash: its characters. *)
Definition literal_template (s : string) : list Re.piece :=
  map (fun c => Re.Lit (String c "")) (list_ascii_of_string s).

Lemma compile_template_literal (s : string) :
  no_backslash s -> Re.compile_template s = Some (literal_template s).
Proof.
  intros H. unfold Re.compile_template. rewrite (tokenize_plain s H).
  apply parse_plain.
Qed.

Lemma replacement_plain (sec new : string) :
  no_backslash sec -> no_backslash new -> no_backslash (replacement sec new).
Proof.
  intros Hs Hn. unfold replacement, start_marker, end_marker.
  repeat (apply no_backslash_app; try assumption; try reflexivity).
Qed.

(** The decisions of [ends_first] and [has_pair], for concrete texts. *)
Lemma ends_first_by_run (lit g : string) :
  Re.lazy_until lit (g ++ lit) = Some (g, "") -> ends_first lit g.
Proof. apply lazy_until_ends_first. Qed.

Lemma no_pair_by_search (st en s : string) :
  Re.search st en s = None -> ~ has_pair st en s.
Proof. apply search_none_iff. Qed.

Section Patcher.

Variables sec new : string.
Hypothesis sec_plain : no_backslash sec.
Hypothesis new_plain : no_backslash new.

Let smark := start_marker sec.
Let emark := end_marker sec.
Let repl := replacement sec new.
Let sub := pattern_sub sec (literal_template repl).

(** [pattern.sub] with a literal replacement, one match at a time. *)
Lemma sub_step (s : string) :
  sub s = match Re.search smark emark s with
          | None => s
          | Some (pre, g, rest) => pre ++ repl ++ sub rest
          end.
Proof.
  unfold sub. rewrite pattern_sub_step. fold smark emark.
  destruct (Re.search smark emark s) as [[[pre g] rest]|]; [|reflexivity].
  unfold literal_template. now rewrite expand_plain.
Qed.

Lemma update_by_sub (content : string) :
  update_readme_section content sec new =
  (match Re.search smark emark content with
   | None => [missing_markers_warning sec]
   | Some _ => []
   end, Ok (sub content)).
Proof.
  unfold update_readme_section. cbv zeta.
  change (start_marker sec ++ PyStr.nl ++ new ++ PyStr.nl ++ end_marker sec)
    with (replacement sec new).
  fold smark emark. rewrite (sub_step content).
  destruct (Re.search smark emark content) as [[[pre g] rest]|] eqn:Es; [|reflexivity].
  rewrite (compile_template_literal _
             (replacement_plain sec new sec_plain new_plain)).
  fold repl. fold sub. rewrite (sub_step content), Es. reflexivity.
Qed.

Lemma sub_first (pre old rest : string) :
  ends_first smark pre -> ends_first emark old ->
  sub (pre ++ smark ++ old ++ emark ++ rest) = pre ++ repl ++ sub rest.
Proof.
  intros Hp Ho. rewrite sub_step, (search_first smark emark pre old rest Hp Ho).
  reflexivity.
Qed.

Lemma sub_no_pair (s : string) : ~ has_pair smark emark s -> sub s = s.
Proof.
  intros H. apply search_none_iff in H. now rewrite sub_step, H.
Qed.

(** Substituting twice is substituting once, when the end marker occurs
    in the replacement only as its end. *)
Lemma sub_idempotent :
  ends_first emark (PyStr.nl ++ new ++ PyStr.nl) ->
  forall s, sub (sub s) = sub s.
Proof.
  intros Hbody s.
  induction s as [s IH] using (well_founded_induction
                                 (well_founded_ltof _ String.length)).
  rewrite (sub_step s).
  destruct (Re.search smark emark s) as [[[pre g] rest]|] eqn:Es.
  - destruct (search_ends_first _ _ _ _ _ _ Es) as [Hpre _].
    assert (Harg : pre ++ repl ++ sub rest =
                   pre ++ smark ++ (PyStr.nl ++ new ++ PyStr.nl) ++ emark ++ sub rest).
    { unfold repl, replacement. fold smark emark. now rewrite !append_assoc. }
    rewrite Harg at 1.
    rewrite (sub_first pre (PyStr.nl ++ new ++ PyStr.nl) (sub rest) Hpre Hbody).
    rewrite IH; [reflexivity|].
    unfold ltof. eapply search_rest_shorter. exact Es.
  - now rewrite sub_step, Es.
Qed.

End Patcher.

(** C8: when the document holds no start marker followed by an end
    marker, [update_readme_section] returns it unchanged and prints one
    warning; it does not raise. *)
Theorem missing_markers_leave_document (content sec new : string) :
  ~ has_pair (start_marker sec) (end_marker sec) content ->
  update_readme_section content sec new =
  ([missing_markers_warning sec], Ok content).
Proof.
  intros H. apply search_none_iff in H.
  unfold update_readme_section. cbv zeta. rewrite H. reflexivity.
Qed.

Lemma missing_markers_leave_document_witness :
  update_readme_section "# Hi <!-- ACTIVITY_END --> <!-- ACTIVITY_START -->"
                        "ACTIVITY" "new" =
  (["Warning: Section markers for 'ACTIVITY' not found in README"],
   Ok "# Hi <!-- ACTIVITY_END --> <!-- ACTIVITY_START -->").
Proof.
  apply (missing_markers_leave_document
           "# Hi <!-- ACTIVITY_END --> <!-- ACTIVITY_START -->" "ACTIVITY" "new").
  apply no_pair_by_search. vm_compute. reflexivity.
Defined.

(** The document of the examples. *)
Definition example_document : string :=
  "X <!-- ACTIVITY_START -->old<!-- ACTIVITY_END --> Y".

(** The original reading of C6 fails on a document with a second pair:
    the text after the first pair is not left unchanged, the second pair
    is rewritten too.  It also fails for a body with a backslash: the
    body [\1] is replaced by the text of group 1, the start marker. *)
Lemma text_after_first_pair_rewritten :
  ends_first (start_marker "ACTIVITY") ""
  /\ ends_first (end_marker "ACTIVITY") "a"
  /\ update_readme_section
       ("" ++ start_marker "ACTIVITY" ++ "a" ++ end_marker "ACTIVITY"
        ++ "<!-- ACTIVITY_START -->b<!-- ACTIVITY_END -->")
       "ACTIVITY" "n"
     = ([], Ok ("<!-- ACTIVITY_START -->" ++ PyStr.nl ++ "n" ++ PyStr.nl
                ++ "<!-- ACTIVITY_END --><!-- ACTIVITY_START -->" ++ PyStr.nl
                ++ "n" ++ PyStr.nl ++ "<!-- ACTIVITY_END -->"))
  /\ String.eqb
       ("<!-- ACTIVITY_START -->" ++ PyStr.nl ++ "n" ++ PyStr.nl
        ++ "<!-- ACTIVITY_END --><!-- ACTIVITY_START -->" ++ PyStr.nl
        ++ "n" ++ PyStr.nl ++ "<!-- ACTIVITY_END -->")
       ("" ++ start_marker "ACTIVITY" ++ PyStr.nl ++ "n" ++ PyStr.nl
        ++ end_marker "ACTIVITY"
        ++ "<!-- ACTIVITY_START -->b<!-- ACTIVITY_END -->") = false
  /\ update_readme_section example_document "ACTIVITY" "\1"
     = ([], Ok ("X <!-- ACTIVITY_START -->" ++ PyStr.nl
                ++ "<!-- ACTIVITY_START -->" ++ PyStr.nl
                ++ "<!-- ACTIVITY_END --> Y")).
Proof.
  split; [apply ends_first_nil|].
  split; [apply ends_first_by_run; vm_compute; reflexivity|].
  repeat split; vm_compute; reflexivity.
Qed.

(** C6 (amended): for a section name and a body without backslash, the
    text from the first start marker to the first end marker after it is
    replaced by the start marker, a newline, the body, a newline and the
    end marker; the text before is unchanged; the text after is patched
    in the same way, and so unchanged when it holds no further pair. *)
Theorem first_pair_replaced (sec new pre old rest : string) :
  no_backslash sec -> no_backslash new ->
  ends_first (start_marker sec) pre ->
  ends_first (end_marker sec) old ->
  exists rest',
    snd (update_readme_section rest sec new) = Ok rest'
    /\ update_readme_section
         (pre ++ start_marker sec ++ old ++ end_marker sec ++ rest) sec new
       = ([], Ok (pre ++ start_marker sec ++ PyStr.nl ++ new ++ PyStr.nl
                  ++ end_marker sec ++ rest'))
    /\ (~ has_pair (start_marker sec) (end_marker sec) rest -> rest' = rest).
Proof.
  intros Hs Hn Hp Ho.
  exists (pattern_sub sec (literal_template (replacement sec new)) rest).
  rewrite !(update_by_sub sec new Hs Hn). cbn [snd].
  rewrite (search_first _ _ pre old rest Hp Ho).
  rewrite (sub_first sec new pre old rest Hp Ho).
  repeat split.
  - unfold replacement. now rewrite !append_assoc.
  - apply sub_no_pair.
Qed.

Lemma first_pair_replaced_witness :
  update_readme_section example_document "ACTIVITY" "new" =
  ([], Ok ("X <!-- ACTIVITY_START -->" ++ PyStr.nl ++ "new" ++ PyStr.nl
           ++ "<!-- ACTIVITY_END --> Y")).
Proof.
  destruct (first_pair_replaced "ACTIVITY" "new" "X " "old" " Y")
    as (rest' & _ & H & Hrest).
  - reflexivity.
  - reflexivity.
  - apply ends_first_by_run. vm_compute. reflexivity.
  - apply ends_first_by_run. vm_compute. reflexivity.
  - rewrite Hrest in H; [exact H|].
    apply no_pair_by_search. vm_compute. reflexivity.
Defined.

(** A document given by its marker pairs: the text before each pair and
    the body of each pair, then the text after the last pair. *)
Fixpoint document (sec : string) (pairs : list (string * string))
    (tail : string) : string :=
  match pairs with
  | [] => tail
  | (pre, body) :: pairs' =>
      pre ++ start_marker sec ++ body ++ end_marker sec
      ++ document sec pairs' tail
  end.

(** Each pair starts at the first start marker of what is left of the
    document and ends at the first end marker after it. *)
Definition pairs_in_order (sec : string) (pairs : list (string * string)) : Prop :=
  Forall (fun pb => ends_first (start_marker sec) (fst pb)
                    /\ ends_first (end_marker sec) (snd pb)) pairs.

(** Every document is of this form, in one way. *)
Lemma every_document_has_pairs (sec content : string) :
  exists pairs tail,
    content = document sec pairs tail
    /\ pairs_in_order sec pairs
    /\ ~ has_pair (start_marker sec) (end_marker sec) tail.
Proof.
  induction content as [content IH]
    using (well_founded_induction (well_founded_ltof _ String.length)).
  destruct (Re.search (start_marker sec) (end_marker sec) content)
    as [[[pre body] rest]|] eqn:Es.
  - destruct (IH rest) as (pairs & tail & Hd & Hp & Ht).
    { unfold ltof. eapply search_rest_shorter. exact Es. }
    exists ((pre, body) :: pairs), tail. repeat split.
    + cbn [document]. rewrite <- Hd. now apply search_sound.
    + constructor; [|exact Hp]. cbn [fst snd].
      now apply (search_ends_first _ _ _ _ _ _ Es).
    + exact Ht.
  - exists [], content. repeat split; [constructor|].
    now apply search_none_iff.
Qed.

(** The original reading of C1 fails: the second pair is rewritten as
    well. *)
Lemma second_pair_rewritten :
  update_readme_section
    "<!-- ACTIVITY_START -->a<!-- ACTIVITY_END --> - <!-- ACTIVITY_START -->b<!-- ACTIVITY_END -->"
    "ACTIVITY" "n"
  = ([], Ok ("<!-- ACTIVITY_START -->" ++ PyStr.nl ++ "n" ++ PyStr.nl
             ++ "<!-- ACTIVITY_END --> - <!-- ACTIVITY_START -->" ++ PyStr.nl
             ++ "n" ++ PyStr.nl ++ "<!-- ACTIVITY_END -->"))
  /\ String.eqb
       ("<!-- ACTIVITY_START -->" ++ PyStr.nl ++ "n" ++ PyStr.nl
        ++ "<!-- ACTIVITY_END --> - <!-- ACTIVITY_START -->" ++ PyStr.nl
        ++ "n" ++ PyStr.nl ++ "<!-- ACTIVITY_END -->")
       ("<!-- ACTIVITY_START -->" ++ PyStr.nl ++ "n" ++ PyStr.nl
        ++ "<!-- ACTIVITY_END --> - <!-- ACTIVITY_START -->b<!-- ACTIVITY_END -->")
     = false.
Proof. split; vm_compute; reflexivity. Qed.

(** C1 (amended): on a document with two or more marker pairs of the
    section, for a section name and a body without backslash,
    [update_readme_section] replaces the body of every pair, from left to
    right, by a newline, the new body and a newline, and leaves the text
    between and around the pairs unchanged. *)
Theorem every_pair_replaced (sec new : string)
    (pairs : list (string * string)) (tail : string) :
  no_backslash sec -> no_backslash new ->
  pairs_in_order sec pairs ->
  ~ has_pair (start_marker sec) (end_marker sec) tail ->
  2 <= List.length pairs ->
  update_readme_section (document sec pairs tail) sec new =
  ([], Ok (document sec
             (map (fun pb => (fst pb, PyStr.nl ++ new ++ PyStr.nl)) pairs)
             tail)).
Proof.
  intros Hs Hn Hpairs Htail Hlen.
  rewrite (update_by_sub sec new Hs Hn).
  assert (Hsub : pattern_sub sec (literal_template (replacement sec new))
                   (document sec pairs tail) =
                 document sec
                   (map (fun pb => (fst pb, PyStr.nl ++ new ++ PyStr.nl)) pairs)
                   tail).
  { clear Hlen. induction Hpairs as [|[pre body] pairs [Hp Hb] _ IH].
    - apply (sub_no_pair sec new). exact Htail.
    - cbn [document map fst snd] in *.
      rewrite (sub_first sec new pre body _ Hp Hb), IH.
      unfold replacement. now rewrite !append_assoc. }
  rewrite Hsub. destruct Hpairs as [|[pre body] pairs [Hp Hb] _].
  - simpl in Hlen. lia.
  - cbn [document fst snd] in *.
    now rewrite (search_first _ _ pre body _ Hp Hb).
Qed.

Lemma every_pair_replaced_witness :
  update_readme_section
    "<!-- ACTIVITY_START -->a<!-- ACTIVITY_END --> - <!-- ACTIVITY_START -->b<!-- ACTIVITY_END -->."
    "ACTIVITY" "n"
  = ([], Ok ("<!-- ACTIVITY_START -->" ++ PyStr.nl ++ "n" ++ PyStr.nl
             ++ "<!-- ACTIVITY_END --> - <!-- ACTIVITY_START -->" ++ PyStr.nl
             ++ "n" ++ PyStr.nl ++ "<!-- ACTIVITY_END -->.")).
Proof.
  apply (every_pair_replaced "ACTIVITY" "n" [("", "a"); (" - ", "b")] ".").
  - reflexivity.
  - reflexivity.
  - repeat constructor; apply ends_first_by_run; vm_compute; reflexivity.
  - apply no_pair_by_search. vm_compute. reflexivity.
  - simpl. lia.
Defined.

(** The original reading of C7 fails for a body that holds the end
    marker: the second run stops at the end marker of the body and leaves
    the rest of the first replacement behind it. *)
Lemma body_with_end_marker_not_idempotent :
  let once := "X <!-- ACTIVITY_START -->" ++ PyStr.nl ++ "<!-- ACTIVITY_END -->"
              ++ PyStr.nl ++ "<!-- ACTIVITY_END --> Y" in
  let twice := "X <!-- ACTIVITY_START -->" ++ PyStr.nl ++ "<!-- ACTIVITY_END -->"
               ++ PyStr.nl ++ "<!-- ACTIVITY_END -->"
               ++ PyStr.nl ++ "<!-- ACTIVITY_END --> Y" in
  update_readme_section example_document "ACTIVITY" "<!-- ACTIVITY_END -->"
    = ([], Ok once)
  /\ update_readme_section once "ACTIVITY" "<!-- ACTIVITY_END -->" = ([], Ok twice)
  /\ String.eqb once twice = false.
Proof. repeat split; vm_compute; reflexivity. Qed.

(** C7 (amended): for a section name and a body without backslash, such
    that the end marker occurs in the body between its two newlines,
    followed by the end marker, only as the end, running
    [update_readme_section] on its own result gives the same document and
    the same printed lines as the first run. *)
Theorem patch_idempotent (sec new content : string) :
  no_backslash sec -> no_backslash new ->
  ends_first (end_marker sec) (PyStr.nl ++ new ++ PyStr.nl) ->
  exists printed patched,
    update_readme_section content sec new = (printed, Ok patched)
    /\ update_readme_section patched sec new = (printed, Ok patched).
Proof.
  intros Hs Hn Hbody.
  exists (fst (update_readme_section content sec new)),
         (pattern_sub sec (literal_template (replacement sec new)) content).
  rewrite !(update_by_sub sec new Hs Hn). cbn [fst].
  rewrite (sub_idempotent sec new Hbody). split; [reflexivity|].
  f_equal. rewrite (sub_step sec new content).
  destruct (Re.search (start_marker sec) (end_marker sec) content)
    as [[[pre g] rest]|] eqn:Es.
  - pose proof (search_complete (start_marker sec) (end_marker sec)
                  (pre ++ replacement sec new
                   ++ pattern_sub sec (literal_template (replacement sec new)) rest))
      as Hc.
    destruct (Re.search _ _ (pre ++ replacement sec new ++ _)); [reflexivity|].
    elim Hc; [|reflexivity].
    exists pre, (PyStr.nl ++ new ++ PyStr.nl),
      (pattern_sub sec (literal_template (replacement sec new)) rest).
    unfold replacement. now rewrite !append_assoc.
  - now rewrite Es.
Qed.

Lemma patch_idempotent_witness :
  exists printed patched,
    update_readme_section example_document "ACTIVITY" "new" = (printed, Ok patched)
    /\ update_readme_section patched "ACTIVITY" "new" = (printed, Ok patched).
Proof.
  apply (patch_idempotent "ACTIVITY" "new" example_document).
  - reflexivity.
  - reflexivity.
  - apply ends_first_by_run. vm_compute. reflexivity.
Defined.

(** * Further properties *)

(** ** Contributions: what a record holds *)

(** The pull request is merged, on or after the cutoff. *)
Definition merged_since (cutoff_iso : string) (pr : PullRequest.t) : Prop :=
  exists m, PullRequest.mergedAt pr = Some m /\ PyStr.lt m cutoff_iso = false.

(** The test of the list comprehension of [merged_prs]. *)
Definition merged_sinceb (cutoff_iso : string) (pr : PullRequest.t) : bool :=
  match PullRequest.mergedAt pr with
  | Some m => PyStr.ge m cutoff_iso
  | None => false
  end.

Lemma merged_sinceb_iff (cutoff_iso : string) (pr : PullRequest.t) :
  merged_sinceb cutoff_iso pr = true <-> merged_since cutoff_iso pr.
Proof.
  unfold merged_sinceb, merged_since, PyStr.ge, PyStr.lt. split.
  - destruct (PullRequest.mergedAt pr) as [m|]; [|discriminate].
    intros H. exists m. split; [reflexivity | now apply negb_true_iff].
  - intros (m & -> & H). now rewrite H.
Qed.

(** The head of a list sorted with [reverse=True] is one of its
    elements, and no key is above its key. *)
Lemma list_sort_reverse_head {A : Type} (key : A -> string) (l : list A)
    (a : A) (rest : list A) :
  list_sort key true l = a :: rest ->
  In a l /\ forall b, In b l -> PyStr.ge (key a) (key b) = true.
Proof.
  intros E. destruct (list_sort_reverse_spec key l) as (HP & HS & _).
  rewrite E in HP, HS. split.
  - apply (Permutation_in a HP). now left.
  - intros b Hb. apply (Permutation_in b (Permutation_sym HP)) in Hb.
    destruct Hb as [<-|Hb].
    + unfold PyStr.ge. fold (PyStr.lt (key a) (key a)). now rewrite lt_irrefl.
    + inversion HS as [|x l' _ HF]; subst. rewrite Forall_forall in HF.
      now apply HF.
Qed.

Lemma list_sort_reverse_nil {A : Type} (key : A -> string) (l : list A) :
  list_sort key true l = [] -> l = [].
Proof.
  intros E. destruct (list_sort_reverse_spec key l) as (HP & _).
  rewrite E in HP. now apply Permutation_nil.
Qed.

(** What [contribution_step] puts in a record. *)
Definition contribution_of (cutoff_iso : string) (e : RepoContribution.t)
    (a : Activity.t) : Prop :=
  let repo := RepoContribution.repository e in
  let merged := filter (merged_sinceb cutoff_iso) (RepoContribution.nodes e) in
  Repository.isPrivate repo = false
  /\ PyStr.lower (Repository.owner_login repo) <> PyStr.lower GITHUB_USERNAME
  /\ hash_like (Repository.owner_login repo) = false
  /\ Activity.name a = Repository.nameWithOwner repo
  /\ Activity.url a = Repository.url repo
  /\ Activity.type a = Activity.contribution (List.length merged)
  /\ 1 <= List.length merged
  /\ (exists pr, In pr (RepoContribution.nodes e)
                 /\ PullRequest.mergedAt pr = Some (Activity.latest_activity a)
                 /\ PyStr.lt (Activity.latest_activity a) cutoff_iso = false)
  /\ (forall pr m, In pr (RepoContribution.nodes e) ->
                   PullRequest.mergedAt pr = Some m ->
                   PyStr.lt m cutoff_iso = false ->
                   PyStr.ge (Activity.latest_activity a) m = true).

Lemma contribution_step_some (cutoff_iso : string) (e : RepoContribution.t)
    (a : Activity.t) :
  contribution_step cutoff_iso e = Some a -> contribution_of cutoff_iso e a.
Proof.
  unfold contribution_step, contribution_of. cbv zeta.
  change (fun pr : PullRequest.t =>
            match PullRequest.mergedAt pr with
            | Some m => PyStr.ge m cutoff_iso
            | None => false
            end) with (merged_sinceb cutoff_iso).
  destruct (Repository.isPrivate _); [discriminate|].
  destruct (String.eqb_spec
              (PyStr.lower (Repository.owner_login (RepoContribution.repository e)))
              (PyStr.lower GITHUB_USERNAME)) as [|Hne]; [discriminate|].
  destruct (hash_like _); [discriminate|].
  set (merged := filter (merged_sinceb cutoff_iso) (RepoContribution.nodes e)).
  destruct (list_sort merged_key true merged) as [|latest rest] eqn:Es;
    [discriminate|].
  intros H. injection H as <-. cbn [Activity.name Activity.url Activity.type
                                    Activity.latest_activity].
  destruct (list_sort_reverse_head merged_key merged latest rest Es)
    as [Hin Hmax].
  assert (Hq : merged_since cutoff_iso latest).
  { apply merged_sinceb_iff. unfold merged in Hin.
    now apply filter_In in Hin. }
  destruct Hq as (m0 & Hm0 & Hlt0).
  assert (Hkey : merged_key latest = m0).
  { unfold merged_key. now rewrite Hm0. }
  repeat split; try assumption; try reflexivity.
  - destruct merged; [destruct Hin | simpl; lia].
  - exists latest. rewrite Hkey. repeat split; try assumption.
    unfold merged in Hin. now apply filter_In in Hin.
  - intros pr m Hpr Hm Hlt.
    assert (Hpm : In pr merged).
    { unfold merged. apply filter_In. split; [exact Hpr|].
      apply merged_sinceb_iff. now exists m. }
    specialize (Hmax pr Hpm). unfold merged_key at 2 in Hmax.
    now rewrite Hm in Hmax.
Qed.

Lemma contributions_loop_in (cutoff_iso : string) (l : list RepoContribution.t)
    (a : Activity.t) :
  In a (contributions_loop cutoff_iso l) ->
  exists e, In e l /\ contribution_step cutoff_iso e = Some a.
Proof.
  induction l as [|e l IH]; [intros []|].
  cbn [contributions_loop].
  destruct (contribution_step cutoff_iso e) as [a'|] eqn:E.
  - intros [<-|H].
    + exists e. split; [now left | exact E].
    + destruct (IH H) as (e' & He' & Hs). exists e'. split; [now right | exact Hs].
  - intros H. destruct (IH H) as (e' & He' & Hs).
    exists e'. split; [now right | exact Hs].
Qed.

Lemma get_open_source_contributions_run (W : world) (cutoff_iso : string)
    (log : list string) :
  get_open_source_contributions W cutoff_iso log =
  (match graphql W contributions_query with
   | Some (GraphQL.Make (Some pr_repos)) => contributions_loop cutoff_iso pr_repos
   | _ => []
   end, (log ++ ["https://api.github.com/graphql"])%list).
Proof.
  unfold get_open_source_contributions, bind, github_graphql_request, ret.
  destruct (graphql W contributions_query) as [[[l|]]|]; reflexivity.
Qed.

(** X1: every record of [get_open_source_contributions] comes from an
    entry of the GraphQL result that is public, not owned by the user and
    not hash-like; it carries the entry's name and URL, counts the pull
    requests of the entry merged on or after the cutoff (at least one),
    and its [latest_activity] is the merge date of one of them, not below
    the merge date of any other. *)
Theorem contribution_records_sound (W : world) (cutoff_iso : string)
    (log : list string) (a : Activity.t) :
  In a (fst (get_open_source_contributions W cutoff_iso log)) ->
  exists pr_repos e,
    graphql W contributions_query = Some (GraphQL.Make (Some pr_repos))
    /\ In e pr_repos
    /\ contribution_of cutoff_iso e a.
Proof.
  rewrite get_open_source_contributions_run. cbn [fst].
  destruct (graphql W contributions_query) as [[[l|]]|]; try (intros []).
  intros H. destruct (contributions_loop_in cutoff_iso l a H) as (e & He & Hs).
  exists l, e. split; [reflexivity|]. split; [exact He|].
  now apply contribution_step_some.
Qed.

Definition two_merges_entry : RepoContribution.t :=
  RepoContribution.Make
    (Repository.Make "other/lib" "https://github.com/other/lib" false "other")
    [PullRequest.Make "old" "https://github.com/other/lib/pull/1"
       (Some "2026-01-01T00:00:00Z") "MERGED";
     PullRequest.Make "first" "https://github.com/other/lib/pull/2"
       (Some "2026-09-10T00:00:00Z") "MERGED";
     PullRequest.Make "open" "https://github.com/other/lib/pull/3" None "OPEN";
     PullRequest.Make "second" "https://github.com/other/lib/pull/4"
       (Some "2026-10-03T00:00:00Z") "MERGED"].

Definition contributions_world (pr_repos : list RepoContribution.t) : world :=
  example_world [] (fun _ => None) (fun _ => None) (fun _ => None) pr_repos.

Lemma contribution_records_sound_witness :
  exists pr_repos e,
    graphql (contributions_world [two_merges_entry]) contributions_query
      = Some (GraphQL.Make (Some pr_repos))
    /\ In e pr_repos
    /\ contribution_of example_cutoff e
         (Activity.Make (Activity.contribution 2) "other/lib"
            "https://github.com/other/lib" "2026-10-03T00:00:00Z").
Proof.
  apply (contribution_records_sound (contributions_world [two_merges_entry])
           example_cutoff []).
  left. reflexivity.
Defined.

Lemma contributions_without (W : world) (cutoff_iso : string)
    (l1 : list RepoContribution.t) (e : RepoContribution.t)
    (l2 : list RepoContribution.t) (log : list string) :
  graphql W contributions_query = Some (GraphQL.Make (Some (l1 ++ e :: l2)%list)) ->
  contribution_step cutoff_iso e = None ->
  get_open_source_contributions W cutoff_iso log =
  get_open_source_contributions (with_contributions W (l1 ++ l2)) cutoff_iso log.
Proof.
  intros Hq Hstep. rewrite !get_open_source_contributions_run, Hq.
  cbn [graphql with_contributions].
  rewrite !contributions_loop_app. cbn [contributions_loop].
  now rewrite Hstep.
Qed.

(** X2: an entry of the GraphQL result whose repository is private, or
    whose owner login equals the user's once both are lowered, gets no
    record: [get_open_source_contributions] returns what it returns for
    the result without the entry. *)
Theorem private_or_own_entry_has_no_record (W : world) (cutoff_iso : string)
    (l1 : list RepoContribution.t) (e : RepoContribution.t)
    (l2 : list RepoContribution.t) (log : list string) :
  graphql W contributions_query = Some (GraphQL.Make (Some (l1 ++ e :: l2)%list)) ->
  Repository.isPrivate (RepoContribution.repository e) = true
  \/ PyStr.lower (Repository.owner_login (RepoContribution.repository e))
     = PyStr.lower GITHUB_USERNAME ->
  get_open_source_contributions W cutoff_iso log =
  get_open_source_contributions (with_contributions W (l1 ++ l2)) cutoff_iso log.
Proof.
  intros Hq H. apply (contributions_without W cutoff_iso l1 e l2 log Hq).
  unfold contribution_step.
  destruct (Repository.isPrivate _); [reflexivity|].
  destruct H as [H|H]; [discriminate H|]. rewrite H, String.eqb_refl. reflexivity.
Qed.

Definition own_entry : RepoContribution.t :=
  RepoContribution.Make
    (Repository.Make "JimYag/tool" "https://github.com/JimYag/tool" false "JimYag")
    [PullRequest.Make "fix" "https://github.com/JimYag/tool/pull/1"
       (Some "2026-10-01T00:00:00Z") "MERGED"].

Lemma private_or_own_entry_has_no_record_witness :
  get_open_source_contributions (contributions_world [own_entry]) example_cutoff []
  = ([], ["https://api.github.com/graphql"]).
Proof.
  apply (private_or_own_entry_has_no_record (contributions_world [own_entry])
           example_cutoff [] own_entry [] [] eq_refl).
  right. reflexivity.
Defined.

(** X3: an entry none of whose pull requests is merged on or after the
    cutoff gets no record, whatever the repository. *)
Theorem entry_without_recent_merge_has_no_record (W : world)
    (cutoff_iso : string) (l1 : list RepoContribution.t)
    (e : RepoContribution.t) (l2 : list RepoContribution.t)
    (log : list string) :
  graphql W contributions_query = Some (GraphQL.Make (Some (l1 ++ e :: l2)%list)) ->
  Forall (fun pr => ~ merged_since cutoff_iso pr) (RepoContribution.nodes e) ->
  get_open_source_contributions W cutoff_iso log =
  get_open_source_contributions (with_contributions W (l1 ++ l2)) cutoff_iso log.
Proof.
  intros Hq H. apply (contributions_without W cutoff_iso l1 e l2 log Hq).
  unfold contribution_step.
  destruct (Repository.isPrivate _); [reflexivity|].
  destruct (String.eqb _ _); [reflexivity|].
  destruct (hash_like _); [reflexivity|]. cbv zeta.
  change (fun pr : PullRequest.t =>
            match PullRequest.mergedAt pr with
            | Some m => PyStr.ge m cutoff_iso
            | None => false
            end) with (merged_sinceb cutoff_iso).
  rewrite (filter_none (merged_sinceb cutoff_iso)); [reflexivity|].
  eapply Forall_impl; [|exact H]. intros pr Hpr.
  destruct (merged_sinceb cutoff_iso pr) eqn:E; [|reflexivity].
  now apply merged_sinceb_iff in E.
Qed.

Definition stale_entry : RepoContribution.t :=
  RepoContribution.Make
    (Repository.Make "other/lib" "https://github.com/other/lib" false "other")
    [PullRequest.Make "old" "https://github.com/other/lib/pull/1"
       (Some "2026-01-01T00:00:00Z") "MERGED";
     PullRequest.Make "open" "https://github.com/other/lib/pull/3" None "OPEN"].

Lemma entry_without_recent_merge_has_no_record_witness :
  get_open_source_contributions (contributions_world [stale_entry]) example_cutoff []
  = ([], ["https://api.github.com/graphql"]).
Proof.
  apply (entry_without_recent_merge_has_no_record
           (contributions_world [stale_entry]) example_cutoff [] stale_entry [] []
           eq_refl).
  apply Forall_cons; [|apply Forall_cons; [|apply Forall_nil]];
    intros (m & Hm & Hlt).
  - injection Hm as <-. discriminate Hlt.
  - discriminate Hm.
Defined.


(** X5: every record of [get_open_source_contributions] renders as
    [- [name](url) (k merged PR)] when the entry has one pull request
    merged on or after the cutoff, and as [- [name](url) (k merged PRs)]
    when it has k of them, k at least 2; there is no line with 0. *)
Theorem contribution_records_render (W : world) (cutoff_iso : string)
    (log : list string) (a : Activity.t) :
  In a (fst (get_open_source_contributions W cutoff_iso log)) ->
  exists k,
    Activity.type a = Activity.contribution k
    /\ 1 <= k
    /\ activity_line a =
       "- [" ++ Activity.name a ++ "](" ++ Activity.url a ++ ") ("
       ++ PyStr.of_nat k ++ " merged " ++ (if (k =? 1)%nat then "PR" else "PRs")
       ++ ")".
Proof.
  rewrite get_open_source_contributions_run. cbn [fst].
  destruct (graphql W contributions_query) as [[[l|]]|]; try (intros []).
  intros H. destruct (contributions_loop_in cutoff_iso l a H) as (e & _ & Hs).
  destruct (contribution_step_some cutoff_iso e a Hs)
    as (_ & _ & _ & _ & _ & Ht & Hk & _).
  eexists. split; [exact Ht|]. split; [exact Hk|].
  unfold activity_line. rewrite Ht. reflexivity.
Qed.

Lemma contribution_records_render_witness :
  activity_line
    (Activity.Make (Activity.contribution 2) "other/lib"
       "https://github.com/other/lib" "2026-10-03T00:00:00Z")
  = "- [other/lib](https://github.com/other/lib) (2 merged PRs)".
Proof.
  destruct (contribution_records_render (contributions_world [two_merges_entry])
              example_cutoff []
              (Activity.Make (Activity.contribution 2) "other/lib"
                 "https://github.com/other/lib" "2026-10-03T00:00:00Z"))
    as (k & Ht & _ & Hl).
  - left. reflexivity.
  - injection Ht as <-. exact Hl.
Defined.

(** ** Owned repositories: what is skipped, asked and recorded *)

Lemma own_repo_step_not_listed (W : world) (cutoff_iso : string) (r : Repo.t)
    (log : list string) :
  Repo.fork r = Some true
  \/ PyStr.lower (Repo.name r) = PyStr.lower GITHUB_USERNAME ->
  own_repo_step W cutoff_iso r log = (None, log).
Proof.
  intros H. unfold own_repo_step.
  destruct (Repo.fork r) as [[|]|]; try reflexivity;
    (destruct H as [H|H]; [discriminate H|]);
    rewrite H, String.eqb_refl; reflexivity.
Qed.

(** X6: a fork, and the repository whose name is the user's name once
    both are lowered (the profile repository), get no record and no
    request: [get_own_repos_activity] returns the records and sends the
    requests of the listing without it. *)
Theorem fork_or_profile_repo_is_skipped (W : world) (cutoff_iso : string)
    (l1 : list Repo.t) (r : Repo.t) (l2 : list Repo.t) (log : list string) :
  rest_repos W repos_url = Some (l1 ++ r :: l2)%list ->
  Repo.fork r = Some true
  \/ PyStr.lower (Repo.name r) = PyStr.lower GITHUB_USERNAME ->
  get_own_repos_activity W cutoff_iso log =
  get_own_repos_activity (with_repos W (l1 ++ l2)) cutoff_iso log.
Proof.
  intros Hl Hr.
  rewrite (get_own_repos_activity_run W cutoff_iso _ log Hl).
  rewrite (get_own_repos_activity_run (with_repos W (l1 ++ l2)) cutoff_iso
             (l1 ++ l2) log eq_refl).
  rewrite own_repos_loop_with_repos.
  destruct (own_repos_loop_app W cutoff_iso l1 (r :: l2)) as [V R].
  destruct (own_repos_loop_cons W cutoff_iso r l2) as [V' R'].
  destruct (own_repos_loop_app W cutoff_iso l1 l2) as [V'' R''].
  rewrite V, V', V'', R, R', R''.
  unfold value at 2, requests at 2.
  rewrite (own_repo_step_not_listed W cutoff_iso r [] Hr). reflexivity.
Qed.

Definition fork_world : world :=
  example_world
    [Repo.Make (Some true) "forked" "jimyag/forked"
       "https://github.com/jimyag/forked" (Some "2026-10-01T00:00:00Z");
     Repo.Make (Some false) "JimYag" "jimyag/jimyag"
       "https://github.com/jimyag/jimyag" (Some "2026-10-01T00:00:00Z")]
    (fun _ => Some [Commit.Make "c1"])
    (fun _ => None) (fun _ => Some [Tag.Make "v1"]) [].

Lemma fork_or_profile_repo_is_skipped_witness :
  get_own_repos_activity fork_world example_cutoff [] = ([], [repos_url]).
Proof.
  rewrite (fork_or_profile_repo_is_skipped fork_world example_cutoff []
             (Repo.Make (Some true) "forked" "jimyag/forked"
                "https://github.com/jimyag/forked" (Some "2026-10-01T00:00:00Z"))
             [Repo.Make (Some false) "JimYag" "jimyag/jimyag"
                "https://github.com/jimyag/jimyag" (Some "2026-10-01T00:00:00Z")]
             [] eq_refl (or_introl eq_refl)).
  apply (fork_or_profile_repo_is_skipped
           (with_repos fork_world
              [Repo.Make (Some false) "JimYag" "jimyag/jimyag"
                 "https://github.com/jimyag/jimyag" (Some "2026-10-01T00:00:00Z")])
           example_cutoff []
           (Repo.Make (Some false) "JimYag" "jimyag/jimyag"
              "https://github.com/jimyag/jimyag" (Some "2026-10-01T00:00:00Z"))
           [] [] eq_refl).
  right. reflexivity.
Defined.

(** What [own_repo_step] puts in the record of a repository: the
    repository is active; the record carries its name, its URL, its last
    push and the number of its commits since the cutoff; [has_release]
    tells whether a release of the releases reply is published on or
    after the cutoff, and then there is a tag. *)
Definition own_record_of (W : world) (cutoff_iso : string) (r : Repo.t)
    (a : Activity.t) : Prop :=
  exists p commits has_release latest_tag latest_tag_url,
    active W cutoff_iso r p commits
    /\ Activity.name a = Repo.name r
    /\ Activity.url a = Repo.html_url r
    /\ Activity.latest_activity a = p
    /\ Activity.type a =
       Activity.repo (List.length commits) has_release latest_tag latest_tag_url
    /\ (has_release = true <->
        exists rels rel, rest_releases W (releases_url r) = Some rels
                         /\ In rel rels /\ published_since cutoff_iso rel)
    /\ (has_release = true -> latest_tag <> None).

Lemma own_repo_step_is_active (W : world) (cutoff_iso : string) (r : Repo.t)
    (a : Activity.t) :
  value (own_repo_step W cutoff_iso r) = Some a ->
  exists p commits, active W cutoff_iso r p commits.
Proof.
  unfold value, own_repo_step, active.
  destruct (Repo.fork r) as [[|]|] eqn:Ef; try discriminate;
    (destruct (String.eqb_spec (PyStr.lower (Repo.name r))
                               (PyStr.lower GITHUB_USERNAME)) as [|Hn];
     [discriminate|]);
    (destruct (Repo.pushed_at r) as [p|]; [|discriminate]);
    (destruct (negb (PyStr.truthy p) || PyStr.lt p cutoff_iso) eqn:Eg;
     [discriminate|]);
    apply orb_false_iff in Eg; destruct Eg as [Et Hlt];
    unfold bind, github_api_request;
    (destruct (rest_commits W (commits_url cutoff_iso r)) as [[|c cs]|];
     try discriminate);
    intros _; exists p, (c :: cs); repeat split; try assumption;
    try discriminate; intros ->; discriminate Et.
Qed.

Lemma own_repo_step_record (W : world) (cutoff_iso : string) (r : Repo.t)
    (a : Activity.t) :
  value (own_repo_step W cutoff_iso r) = Some a -> own_record_of W cutoff_iso r a.
Proof.
  intros H. destruct (own_repo_step_is_active W cutoff_iso r a H)
    as (p & commits & Ha).
  revert H. unfold value.
  rewrite (own_repo_step_active W cutoff_iso r p commits [] Ha). cbv zeta.
  set (rr := match rest_releases W (releases_url r) with
             | Some l => filter (recent_release cutoff_iso) l
             | None => []
             end).
  assert (Hrr : (0 <? List.length rr)%nat = true <->
                exists rels rel, rest_releases W (releases_url r) = Some rels
                                 /\ In rel rels /\ published_since cutoff_iso rel).
  { unfold rr. destruct (rest_releases W (releases_url r)) as [rels|].
    - split.
      + destruct (filter (recent_release cutoff_iso) rels) as [|rel f] eqn:Ef;
          [discriminate|]. intros _. exists rels, rel.
        assert (Hin : In rel (filter (recent_release cutoff_iso) rels))
          by (rewrite Ef; now left).
        apply filter_In in Hin. destruct Hin as [Hin Hrec].
        repeat split; try assumption. now apply recent_release_iff.
      + intros (rels' & rel & E & Hin & Hpub). injection E as <-.
        assert (Hf : In rel (filter (recent_release cutoff_iso) rels)).
        { apply filter_In. split; [exact Hin | now apply recent_release_iff]. }
        destruct (filter (recent_release cutoff_iso) rels); [destruct Hf|].
        reflexivity.
    - split; [discriminate|]. intros (rels' & rel & E & _). discriminate E. }
  destruct rr as [|rel rr']; cbn [fst snd PyStr.truthy_opt negb] in *.
  - destruct (rest_tags W (tags_url r)) as [[|t ts]|]; intros H;
      injection H as <-; exists p, commits; do 3 eexists;
      (split; [exact Ha|]); cbn [Activity.name Activity.url Activity.type
                                 Activity.latest_activity];
      repeat split; try reflexivity; try apply Hrr; try discriminate.
  - destruct (negb (PyStr.truthy (Release.tag_name rel)));
      [destruct (rest_tags W (tags_url r)) as [[|t ts]|]|]; intros H;
      injection H as <-; exists p, commits; do 3 eexists;
      (split; [exact Ha|]); cbn [Activity.name Activity.url Activity.type
                                 Activity.latest_activity];
      repeat split; try reflexivity; try apply Hrr; try discriminate.
Qed.

Lemma own_repos_loop_in (W : world) (cutoff_iso : string) (l : list Repo.t)
    (a : Activity.t) :
  In a (value (own_repos_loop W cutoff_iso l)) ->
  exists r, In r l /\ value (own_repo_step W cutoff_iso r) = Some a.
Proof.
  induction l as [|r l IH]; [intros []|].
  destruct (own_repos_loop_cons W cutoff_iso r l) as [V _]. rewrite V.
  intros H. apply in_app_or in H. destruct H as [H|H].
  - destruct (value (own_repo_step W cutoff_iso r)) as [a'|] eqn:E;
      [|destruct H]. destruct H as [<-|[]].
    exists r. split; [now left | exact E].
  - destruct (IH H) as (r' & Hr' & Hs). exists r'. split; [now right | exact Hs].
Qed.

(** X7: every record of [get_own_repos_activity] comes from a repository
    of the listing that is not a fork, not the profile repository, pushed
    on or after the cutoff and with at least one commit since; it carries
    the repository's name, URL and last push and the number of those
    commits; its [has_release] is true exactly when the releases reply
    holds a release published on or after the cutoff, and a record with a
    release has a tag. *)
Theorem own_records_sound (W : world) (cutoff_iso : string)
    (log : list string) (a : Activity.t) :
  In a (fst (get_own_repos_activity W cutoff_iso log)) ->
  exists repos r,
    rest_repos W repos_url = Some repos
    /\ In r repos
    /\ own_record_of W cutoff_iso r a.
Proof.
  destruct (rest_repos W repos_url) as [l|] eqn:El.
  - rewrite (get_own_repos_activity_run W cutoff_iso l log El). cbn [fst].
    intros H. destruct (own_repos_loop_in W cutoff_iso l a H) as (r & Hr & Hs).
    exists l, r. split; [reflexivity|]. split; [exact Hr|].
    now apply own_repo_step_record.
  - unfold get_own_repos_activity, bind, github_api_request. rewrite El.
    intros [].
Qed.

Lemma own_records_sound_witness :
  exists repos r,
    rest_repos released_world repos_url = Some repos
    /\ In r repos
    /\ own_record_of released_world example_cutoff r
         (Activity.Make
            (Activity.repo 2 true (Some "v2")
               (Some "https://github.com/jimyag/tool/releases/2"))
            "tool" "https://github.com/jimyag/tool" "2026-10-01T00:00:00Z").
Proof.
  apply (own_records_sound released_world example_cutoff []).
  left. reflexivity.
Defined.

(** What [get_own_repos_activity] does for one repository of the
    listing: nothing; or the commits request and no record; or the
    commits and the releases requests, then the tags request or not, and
    the record of the repository. *)
Definition repo_block (W : world) (cutoff_iso : string) (r : Repo.t)
    (asked : list string) (record : option Activity.t) : Prop :=
  (asked = [] /\ record = None)
  \/ (asked = [commits_url cutoff_iso r] /\ record = None)
  \/ exists a,
       record = Some a
       /\ own_record_of W cutoff_iso r a
       /\ (asked = [commits_url cutoff_iso r; releases_url r]
           \/ asked = [commits_url cutoff_iso r; releases_url r; tags_url r]).

Lemma own_repo_step_block (W : world) (cutoff_iso : string) (r : Repo.t) :
  repo_block W cutoff_iso r (requests (own_repo_step W cutoff_iso r))
             (value (own_repo_step W cutoff_iso r)).
Proof.
  pose proof (own_repo_step_record W cutoff_iso r) as Hrec. revert Hrec.
  unfold repo_block, requests, value, own_repo_step.
  destruct (match Repo.fork r with Some b => b | None => false end);
    [intros _; left; split; reflexivity|].
  destruct (String.eqb _ _); [intros _; left; split; reflexivity|].
  destruct (Repo.pushed_at r) as [p|]; [|intros _; left; split; reflexivity].
  destruct (negb (PyStr.truthy p) || PyStr.lt p cutoff_iso);
    [intros _; left; split; reflexivity|].
  unfold bind, github_api_request, ret.
  destruct (rest_commits W (commits_url cutoff_iso r)) as [[|c cs]|];
    cbn [List.length Nat.eqb app fst snd]; cbv zeta;
    try (intros _; right; left; split; reflexivity).
  destruct (negb (PyStr.truthy_opt _));
    [destruct (rest_tags W (tags_url r)) as [[|t ts]|]|];
    cbn [List.length app fst snd]; intros Hrec; right; right;
    (eexists; split; [reflexivity|]; split; [apply Hrec; reflexivity|]);
    first [left; reflexivity | right; reflexivity].
Qed.

Lemma own_repos_loop_blocks (W : world) (cutoff_iso : string) (l : list Repo.t) :
  let blocks :=
    map (fun r => (requests (own_repo_step W cutoff_iso r),
                   value (own_repo_step W cutoff_iso r))) l in
  Forall2 (fun r b => repo_block W cutoff_iso r (fst b) (snd b)) l blocks
  /\ value (own_repos_loop W cutoff_iso l)
     = flat_map (fun b => record_list (snd b)) blocks
  /\ requests (own_repos_loop W cutoff_iso l) = flat_map fst blocks.
Proof.
  cbv zeta. induction l as [|r l (IHb & IHv & IHr)].
  - repeat split. constructor.
  - destruct (own_repos_loop_cons W cutoff_iso r l) as [V R].
    rewrite V, R, IHv, IHr. cbn [map flat_map fst snd]. repeat split.
    constructor; [apply own_repo_step_block | exact IHb].
Qed.

(** X8: [get_own_repos_activity] first requests the listing of the
    repositories.  After that it goes through the listed repositories in
    order, and for each one it sends no request, or the commits request
    alone, or the commits request and then the releases request, or
    these two and then the tags request; a repository gets a record, its
    own, exactly in the last two cases, and the records come in the
    order of the listing.  When the listing is empty, or its request
    fails with an [HTTPError] or a [URLError] (the reply [None]), the
    listing is the only request and there is no record. *)
Theorem own_repos_requests (W : world) (cutoff_iso : string) (log : list string) :
  let repos := match rest_repos W repos_url with Some l => l | None => [] end in
  exists blocks : list (list string * option Activity.t),
    Forall2 (fun r b => repo_block W cutoff_iso r (fst b) (snd b)) repos blocks
    /\ get_own_repos_activity W cutoff_iso log =
       (flat_map (fun b => record_list (snd b)) blocks,
        (log ++ repos_url :: flat_map fst blocks)%list).
Proof.
  cbv zeta. destruct (rest_repos W repos_url) as [l|] eqn:El.
  - destruct (own_repos_loop_blocks W cutoff_iso l) as (Hb & Hv & Hr).
    eexists. split; [exact Hb|].
    rewrite (get_own_repos_activity_run W cutoff_iso l log El).
    now rewrite Hv, Hr.
  - exists []. split; [constructor|].
    unfold get_own_repos_activity, bind, github_api_request, ret.
    now rewrite El.
Qed.






(** ** Merge and rank: what is kept and what is dropped *)

Lemma sorted_app_order {A : Type} (R : A -> A -> Prop) (l1 l2 : list A) :
  StronglySorted R (l1 ++ l2) ->
  forall a b, In a l1 -> In b l2 -> R a b.
Proof.
  induction l1 as [|x l1 IH]; intros HS a b Ha Hb; [destruct Ha|].
  cbn [app] in HS. inversion HS as [|y l HS' HF]; subst.
  destruct Ha as [<-|Ha].
  - rewrite Forall_forall in HF. apply HF. apply in_or_app. now right.
  - now apply IH.
Qed.

Lemma get_all_activity_run (W : world) (months limit : Z)
    (cutoff_iso : string) (log : list string) :
  clock W (months * 30) = Ok cutoff_iso ->
  get_all_activity W months limit log =
  (Ok (slice_to limit
         (list_sort Activity.latest_activity true
            (value (get_own_repos_activity W cutoff_iso)
             ++ value (get_open_source_contributions W cutoff_iso)))),
   (log ++ requests (get_own_repos_activity W cutoff_iso)
    ++ ["https://api.github.com/graphql"])%list).
Proof.
  intros Hclock. unfold get_all_activity. rewrite Hclock. unfold bind.
  rewrite (regular_get_own_repos_activity W cutoff_iso log).
  rewrite (regular_get_open_source_contributions W cutoff_iso).
  unfold ret. f_equal. rewrite <- app_assoc. f_equal. f_equal.
  unfold requests. now rewrite get_open_source_contributions_run.
Qed.

(** X10: [get_all_activity] splits the records of the two collectors in
    those it returns and those it drops: no record returned is older than
    a record dropped.  With [limit >= 0] it returns [limit] records, or
    all of them when there are fewer; with [limit < 0] the slice
    [[:limit]] drops the [-limit] oldest records instead. *)
Theorem ranking_keeps_the_most_recent (W : world) (months limit : Z)
    (cutoff_iso : string) (log : list string) :
  clock W (months * 30) = Ok cutoff_iso ->
  let all_activity :=
    (value (get_own_repos_activity W cutoff_iso)
     ++ value (get_open_source_contributions W cutoff_iso))%list in
  exists kept dropped,
    fst (get_all_activity W months limit log) = Ok kept
    /\ Permutation (kept ++ dropped) all_activity
    /\ (forall a b, In a kept -> In b dropped ->
          PyStr.ge (Activity.latest_activity a) (Activity.latest_activity b) = true)
    /\ ((0 <= limit)%Z ->
        List.length kept = Nat.min (Z.to_nat limit) (List.length all_activity))
    /\ ((limit < 0)%Z ->
        List.length dropped
        = Nat.min (Z.to_nat (- limit)) (List.length all_activity)).
Proof.
  intros Hclock all_activity.
  rewrite (get_all_activity_run W months limit cutoff_iso log Hclock).
  fold all_activity. cbn [fst].
  set (ranked := list_sort Activity.latest_activity true all_activity).
  destruct (list_sort_reverse_spec Activity.latest_activity all_activity)
    as (HP & HS & _). fold ranked in HP, HS.
  assert (Hlen : List.length ranked = List.length all_activity)
    by now apply Permutation_length.
  set (n := if (limit <? 0)%Z
            then List.length ranked - Z.to_nat (- limit)
            else Z.to_nat limit).
  exists (firstn n ranked), (skipn n ranked).
  assert (Hsl : slice_to limit ranked = firstn n ranked).
  { unfold slice_to, n. now destruct (limit <? 0)%Z. }
  rewrite Hsl, firstn_skipn. repeat split; try assumption.
  - intros a b Ha Hb.
    apply (sorted_app_order (descending Activity.latest_activity)
             (firstn n ranked) (skipn n ranked)); try assumption.
    now rewrite firstn_skipn.
  - intros H0. unfold n. destruct (Z.ltb_spec limit 0); [lia|].
    now rewrite length_firstn, Hlen.
  - intros H0. unfold n. destruct (Z.ltb_spec limit 0); [|lia].
    rewrite length_skipn, Hlen. lia.
Qed.

Definition three_repos_world : world :=
  example_world
    [example_repo "a" "2026-10-01T00:00:00Z";
     example_repo "b" "2026-10-03T00:00:00Z";
     example_repo "c" "2026-10-02T00:00:00Z"]
    (fun _ => Some [Commit.Make "c1"]) (fun _ => None) (fun _ => None) [].

Lemma ranking_keeps_the_most_recent_witness :
  exists kept dropped,
    fst (get_all_activity three_repos_world 2 (-1) []) = Ok kept
    /\ Permutation (kept ++ dropped)
         (value (get_own_repos_activity three_repos_world example_cutoff)
          ++ value (get_open_source_contributions three_repos_world
                      example_cutoff))
    /\ List.length dropped = 1.
Proof.
  destruct (ranking_keeps_the_most_recent three_repos_world 2 (-1)
              example_cutoff [] eq_refl)
    as (kept & dropped & H1 & H2 & _ & _ & H5).
  exists kept, dropped. repeat split; try assumption.
  apply H5. lia.
Defined.


(** ** Renderer: shape of the Markdown *)

Lemma join_cons (sep x y : string) (l : list string) :
  PyStr.join sep (x :: y :: l) = x ++ sep ++ PyStr.join sep (y :: l).
Proof. reflexivity. Qed.

Lemma join_app (sep : string) (l1 l2 : list string) :
  l1 <> [] -> l2 <> [] ->
  PyStr.join sep (l1 ++ l2) = PyStr.join sep l1 ++ sep ++ PyStr.join sep l2.
Proof.
  intros H1 H2. induction l1 as [|x l1 IH]; [now elim H1|].
  destruct l1 as [|y l1].
  - destruct l2 as [|z l2]; [now elim H2 | reflexivity].
  - change ((x :: y :: l1) ++ l2)%list with (x :: y :: (l1 ++ l2))%list.
    rewrite !join_cons.
    change (y :: (l1 ++ l2))%list with ((y :: l1) ++ l2)%list.
    rewrite IH by discriminate. now rewrite !append_assoc.
Qed.

Lemma activity_line_starts (a : Activity.t) :
  exists rest, activity_line a = "- [" ++ rest.
Proof.
  unfold activity_line. destruct (Activity.type a) as [n hr tag tagurl|k].
  - cbv zeta.
    destruct (app (if (0 <? n)%nat then [PyStr.of_nat n ++ " commits"] else [])
                  (if PyStr.truthy_opt tag
                   then ["[" ++ fmt_opt tag ++ "](" ++ fmt_opt tagurl ++ ")"]
                   else [])).
    + eexists. reflexivity.
    + eexists. rewrite !append_assoc. reflexivity.
  - eexists. reflexivity.
Qed.

(** X12: [generate_activity_markdown] gives the placeholder for the empty
    list only: the Markdown of a non-empty list starts with the list item
    [- [] of its first record. *)
Theorem placeholder_only_when_empty (activities : list Activity.t) :
  (generate_activity_markdown activities = "_No recent activity_"
   <-> activities = [])
  /\ (activities <> [] ->
      exists rest, generate_activity_markdown activities = "- [" ++ rest).
Proof.
  assert (H : activities <> [] ->
              exists rest, generate_activity_markdown activities = "- [" ++ rest).
  { destruct activities as [|a l]; [intros E; now elim E|]. intros _.
    destruct (activity_line_starts a) as (rest & Ha).
    unfold generate_activity_markdown. cbn [map].
    destruct l as [|b l].
    - exists rest. exact Ha.
    - cbn [map]. rewrite join_cons, Ha. eexists. rewrite !append_assoc.
      reflexivity. }
  split; [|exact H]. split.
  - destruct activities as [|a l]; [reflexivity|]. intros E.
    destruct H as (rest & Hr); [discriminate|]. rewrite Hr in E. discriminate E.
  - intros ->. reflexivity.
Qed.

(** X13: the Markdown of two non-empty lists of records put together is
    the Markdown of the first, a newline, and the Markdown of the second:
    one line per record, in the order of the list. *)
Theorem markdown_of_append (l1 l2 : list Activity.t) :
  l1 <> [] -> l2 <> [] ->
  generate_activity_markdown (l1 ++ l2) =
  generate_activity_markdown l1 ++ PyStr.nl ++ generate_activity_markdown l2.
Proof.
  intros H1 H2. unfold generate_activity_markdown.
  destruct l1 as [|a l1]; [now elim H1|]. destruct l2 as [|b l2]; [now elim H2|].
  change ((a :: l1) ++ b :: l2)%list with (a :: (l1 ++ b :: l2))%list.
  change (a :: (l1 ++ b :: l2))%list with ((a :: l1) ++ b :: l2)%list at 2.
  rewrite map_app. apply join_app; discriminate.
Qed.

Lemma markdown_of_append_witness :
  generate_activity_markdown
    [Activity.Make (Activity.contribution 1) "o/r" "https://github.com/o/r"
       "2026-10-03T00:00:00Z";
     Activity.Make (Activity.repo 2 false None None) "tool"
       "https://github.com/jimyag/tool" "2026-10-01T00:00:00Z"]
  = "- [o/r](https://github.com/o/r) (1 merged PR)" ++ PyStr.nl
    ++ "- [tool](https://github.com/jimyag/tool) (2 commits)".
Proof.
  apply (markdown_of_append
           [Activity.Make (Activity.contribution 1) "o/r" "https://github.com/o/r"
              "2026-10-03T00:00:00Z"]
           [Activity.Make (Activity.repo 2 false None None) "tool"
              "https://github.com/jimyag/tool" "2026-10-01T00:00:00Z"]);
    discriminate.
Defined.

(** ** Patcher: what a run keeps *)

Lemma has_pair_patched (sec new pre rest : string) :
  has_pair (start_marker sec) (end_marker sec)
           (pre ++ replacement sec new ++ rest).
Proof.
  exists pre, (PyStr.nl ++ new ++ PyStr.nl), rest.
  unfold replacement. now rewrite !append_assoc.
Qed.

(** X14: with a section name and a body without backslash,
    [update_readme_section] never raises, prints a warning exactly when
    the document has no start marker followed by an end marker, and
    returns a document that has the pair exactly when the document given
    has it: a patched section can be patched again. *)
Theorem plain_patch_keeps_markers (sec new content : string) :
  no_backslash sec -> no_backslash new ->
  exists patched,
    snd (update_readme_section content sec new) = Ok patched
    /\ (has_pair (start_marker sec) (end_marker sec) content
        <-> has_pair (start_marker sec) (end_marker sec) patched)
    /\ (fst (update_readme_section content sec new) = []
        <-> has_pair (start_marker sec) (end_marker sec) content).
Proof.
  intros Hs Hn. rewrite (update_by_sub sec new Hs Hn). cbn [fst snd].
  eexists. split; [reflexivity|]. rewrite (sub_step sec new content).
  destruct (Re.search (start_marker sec) (end_marker sec) content)
    as [[[pre g] rest]|] eqn:Es.
  - assert (Hp : has_pair (start_marker sec) (end_marker sec) content).
    { exists pre, g, rest. now apply search_sound. }
    split; split; intros _; try assumption; try reflexivity.
    apply has_pair_patched.
  - apply search_none_iff in Es. split; [reflexivity|].
    split; [discriminate | intros H; now elim Es].
Qed.

Lemma plain_patch_keeps_markers_witness :
  exists patched,
    snd (update_readme_section example_document "ACTIVITY" "new") = Ok patched
    /\ (has_pair (start_marker "ACTIVITY") (end_marker "ACTIVITY") example_document
        <-> has_pair (start_marker "ACTIVITY") (end_marker "ACTIVITY") patched)
    /\ (fst (update_readme_section example_document "ACTIVITY" "new") = []
        <-> has_pair (start_marker "ACTIVITY") (end_marker "ACTIVITY")
                     example_document).
Proof.
  apply (plain_patch_keeps_markers "ACTIVITY" "new" example_document);
    reflexivity.
Defined.

(** A template that starts with a text without backslash starts with the
    text. *)
Lemma tokenize_app_plain (a b : string) :
  no_backslash a ->
  Re.tokenize (a ++ b) =
  option_map (app (map Re.Ch (list_ascii_of_string a))) (Re.tokenize b).
Proof.
  induction a as [|c a IH]; intros H.
  - cbn. now destruct (Re.tokenize b).
  - apply no_backslash_cons in H. destruct H as [Hc Ha].
    cbn [append Re.tokenize list_ascii_of_string map]. rewrite Hc, (IH Ha).
    now destruct (Re.tokenize b).
Qed.

Lemma parse_app_plain (l : list ascii) (ts : list Re.token) :
  Re.parse (map Re.Ch l ++ ts) =
  option_map (app (map (fun c => Re.Lit (String c "")) l)) (Re.parse ts).
Proof.
  induction l as [|c l IH]; cbn [map app].
  - now destruct (Re.parse ts).
  - simp parse. rewrite IH. now destruct (Re.parse ts).
Qed.

Lemma expand_app (t1 t2 : list Re.piece) (m : Re.groups_of_match) :
  Re.expand (t1 ++ t2) m = Re.expand t1 m ++ Re.expand t2 m.
Proof.
  induction t1 as [|[s|n] t1 IH]; cbn [app Re.expand]; [reflexivity| |];
    now rewrite IH, append_assoc.
Qed.

Lemma compile_template_app_plain (a b : string) (tmpl : list Re.piece) :
  no_backslash a ->
  Re.compile_template (a ++ b) = Some tmpl ->
  forall m, exists tail, Re.expand tmpl m = a ++ tail.
Proof.
  unfold Re.compile_template. intros Ha. rewrite (tokenize_app_plain a b Ha).
  destruct (Re.tokenize b) as [ts|]; [|discriminate]. cbn [option_map].
  rewrite parse_app_plain.
  destruct (Re.parse ts) as [t|]; [|discriminate]. cbn [option_map].
  intros E m. injection E as <-. rewrite expand_app. unfold literal_template.
  exists (Re.expand t m). now rewrite (expand_plain a m).
Qed.

(** X15: whatever the body, backslashes included, [update_readme_section]
    on a document with the pair prints nothing and either raises or
    returns a document that starts with the text before the first start
    marker, the start marker (when the section name has no backslash) and
    a newline: the text before the section is never touched. *)
Theorem text_before_section_kept (sec new pre old rest : string) :
  no_backslash sec ->
  ends_first (start_marker sec) pre ->
  ends_first (end_marker sec) old ->
  let content := pre ++ start_marker sec ++ old ++ end_marker sec ++ rest in
  update_readme_section content sec new = ([], Raises)
  \/ exists tail,
       update_readme_section content sec new
       = ([], Ok (pre ++ start_marker sec ++ PyStr.nl ++ tail)).
Proof.
  intros Hs Hp Ho content. unfold update_readme_section. cbv zeta.
  unfold content. rewrite (search_first _ _ pre old rest Hp Ho).
  destruct (Re.compile_template _) as [tmpl|] eqn:Ec; [right | now left].
  rewrite pattern_sub_step, (search_first _ _ pre old rest Hp Ho).
  assert (Hplain : no_backslash (start_marker sec ++ PyStr.nl)).
  { unfold start_marker.
    repeat (apply no_backslash_app; try assumption; try reflexivity). }
  rewrite <- !append_assoc in Ec. rewrite !append_assoc in Ec.
  rewrite <- (append_assoc (start_marker sec) PyStr.nl) in Ec.
  destruct (compile_template_app_plain _ _ tmpl Hplain Ec
              (Re.MkMatch (start_marker sec) old (end_marker sec)))
    as (tail & Ht).
  rewrite Ht. eexists. rewrite !append_assoc. reflexivity.
Qed.

Lemma text_before_section_kept_witness :
  update_readme_section example_document "ACTIVITY" "a\2b\\c" = ([], Raises)
  \/ exists tail,
       update_readme_section example_document "ACTIVITY" "a\2b\\c"
       = ([], Ok ("X " ++ start_marker "ACTIVITY" ++ PyStr.nl ++ tail)).
Proof.
  apply (text_before_section_kept "ACTIVITY" "a\2b\\c" "X " "old" " Y").
  - reflexivity.
  - apply ends_first_by_run. vm_compute. reflexivity.
  - apply ends_first_by_run. vm_compute. reflexivity.
Defined.

(** ** Entry point: what a run writes *)














(** X18: [main] sends all its requests before it opens the README: they
    are those of [get_all_activity] for 2 months and 10 records, also in
    a run that raises.  The README is written exactly in the runs that
    end normally, and a run raises whenever the cutoff cannot be
    computed, the README cannot be read or it cannot be opened for
    writing. *)
Theorem main_writes_only_at_the_end (m : machine) :
  requested (main m) = snd (get_all_activity (github m) 2 10 [])
  /\ (exit (main m) = Ok tt <-> written (main m) <> None)
  /\ (exit (main m) = Raises <-> written (main m) = None)
  /\ (fst (get_all_activity (github m) 2 10 []) = Raises
      \/ readme m = None \/ writable m = false -> exit (main m) = Raises).
Proof.
  unfold main.
  destruct (get_all_activity (github m) 2 10 []) as [[activity|] log];
    cbn [fst snd]; cbv zeta;
    [|cbn; repeat split; try congruence; auto].
  destruct (readme m) as [stored|];
    [|cbn; repeat split; try congruence; auto].
  destruct (update_readme_section (universal_newlines stored) "ACTIVITY" _)
    as [w1 [c1|]];
    [|cbn; repeat split; try congruence; auto].
  destruct (update_readme_section c1 "UPDATED" _) as [w2 [c2|]];
    [|cbn; repeat split; try congruence; auto].
  destruct (writable m); cbn; repeat split; try congruence; auto.
  intros [H|[H|H]]; discriminate H.
Qed.




(** ** Collectors: what is recorded *)

Lemma non_hex_digit_lower (c : ascii) :
  is_hex_digit c = false ->
  PyStr.char_in (PyStr.lower_char c) "0123456789abcdef" = false.
Proof.
  destruct c as [[] [] [] [] [] [] [] []]; vm_compute; intros H;
    solve [reflexivity | discriminate H].
Qed.

Lemma non_hex_login_lower (s : string) :
  PyStr.all_chars is_hex_digit s = false ->
  PyStr.all_chars (fun c => PyStr.char_in c "0123456789abcdef")
                  (PyStr.lower s) = false.
Proof.
  induction s as [|c s IH]; [discriminate|].
  cbn [PyStr.all_chars PyStr.lower]. intros H.
  apply andb_false_iff in H. apply andb_false_iff. destruct H as [H|H].
  - left. now apply non_hex_digit_lower.
  - right. now apply IH.
Qed.

(** X20: an entry of the GraphQL result that is public, not owned by the
    user, whose owner login has at most 30 characters or a character that
    is no hexadecimal digit, and with a pull request merged on or after
    the cutoff, gets its record, between the records of the entries
    before it and those of the entries after it. *)
Theorem eligible_entry_is_recorded (W : world) (cutoff_iso : string)
    (l1 : list RepoContribution.t) (e : RepoContribution.t)
    (l2 : list RepoContribution.t) (log : list string) (pr : PullRequest.t) :
  graphql W contributions_query = Some (GraphQL.Make (Some (l1 ++ e :: l2)%list)) ->
  Repository.isPrivate (RepoContribution.repository e) = false ->
  PyStr.lower (Repository.owner_login (RepoContribution.repository e))
    <> PyStr.lower GITHUB_USERNAME ->
  String.length (Repository.owner_login (RepoContribution.repository e)) <= 30
  \/ PyStr.all_chars is_hex_digit
       (Repository.owner_login (RepoContribution.repository e)) = false ->
  In pr (RepoContribution.nodes e) ->
  merged_since cutoff_iso pr ->
  exists a,
    fst (get_open_source_contributions W cutoff_iso log) =
      (contributions_loop cutoff_iso l1 ++ a :: contributions_loop cutoff_iso l2)%list
    /\ contribution_of cutoff_iso e a.
Proof.
  intros Hq Hpub Hown Hhash Hpr Hm.
  assert (Hstep : exists a, contribution_step cutoff_iso e = Some a).
  { unfold contribution_step. rewrite Hpub.
    destruct (String.eqb_spec
                (PyStr.lower (Repository.owner_login (RepoContribution.repository e)))
                (PyStr.lower GITHUB_USERNAME)) as [|_]; [contradiction|].
    assert (Hh : hash_like (Repository.owner_login (RepoContribution.repository e))
                 = false).
    { unfold hash_like. apply andb_false_iff. destruct Hhash as [H|H].
      - left. apply Nat.ltb_ge. exact H.
      - right. now apply non_hex_login_lower. }
    rewrite Hh. cbv zeta.
    change (fun pr : PullRequest.t =>
              match PullRequest.mergedAt pr with
              | Some m => PyStr.ge m cutoff_iso
              | None => false
              end) with (merged_sinceb cutoff_iso).
    destruct (list_sort merged_key true _) as [|latest rest] eqn:Es.
    - apply list_sort_reverse_nil in Es.
      assert (Hin : In pr (filter (merged_sinceb cutoff_iso)
                             (RepoContribution.nodes e))).
      { apply filter_In. split; [exact Hpr | now apply merged_sinceb_iff]. }
      rewrite Es in Hin. destruct Hin.
    - eexists. reflexivity. }
  destruct Hstep as (a & Hstep). exists a.
  rewrite get_open_source_contributions_run, Hq. cbn [fst].
  rewrite contributions_loop_app. cbn [contributions_loop]. rewrite Hstep.
  split; [reflexivity | now apply contribution_step_some].
Qed.

Lemma eligible_entry_is_recorded_witness :
  exists a,
    fst (get_open_source_contributions (contributions_world [two_merges_entry])
           example_cutoff []) = [a]
    /\ contribution_of example_cutoff two_merges_entry a.
Proof.
  apply (eligible_entry_is_recorded (contributions_world [two_merges_entry])
           example_cutoff [] two_merges_entry [] []
           (PullRequest.Make "first" "https://github.com/other/lib/pull/2"
              (Some "2026-09-10T00:00:00Z") "MERGED") eq_refl).
  - reflexivity.
  - discriminate.
  - left. vm_compute. lia.
  - right. left. reflexivity.
  - exists "2026-09-10T00:00:00Z". split; reflexivity.
Defined.


